(** * Idea2Blog: a shallow embedding of the idea -> narrative -> blog pipeline

    The development follows the three Python modules of the repository:
    [idea2draft2.py] (MemoryObject, ThoughtProcessor), [Draft2Blog.py]
    (BlogMemory, Draft2Blog) and [orchestrator.py] (Orchestrator).

    Python strings are lists of Unicode code points; the string built-ins the
    code relies on ([str.find], slicing with possibly negative bounds,
    [str.strip], [str.startswith], [len]) are written out in module [Py].
    Methods are state transformers that may raise: the exception leaves the
    state as it was at the point of the raise, as in Python. *)

From Stdlib Require Import List ZArith NArith Lia Bool Ascii String DecimalString.
Import ListNotations.

Set Implicit Arguments.

(** ** Python strings *)

Module Py.

Definition char := N.
Definition str := list char.

(** A string literal of the source (all literals of the source are ASCII). *)
Definition lit (s : string) : str := map N_of_ascii (list_ascii_of_string s).

(** The double-quote character, spliced into literals that contain it. *)
Definition dquote : str := [34%N].

Definition len (s : str) : Z := Z.of_nat (List.length s).

(** [s.startswith(pre)] *)
Fixpoint startswith (s pre : str) {struct pre} : bool :=
  match pre with
  | [] => true
  | p :: pre' =>
      match s with
      | [] => false
      | c :: s' => N.eqb c p && startswith s' pre'
      end
  end.

(** [s.find(sub)], counting from offset [i]: the lowest index at which [sub]
    occurs, and -1 when it occurs nowhere. *)
Fixpoint find_from (s sub : str) (i : Z) : Z :=
  if startswith s sub then i
  else match s with
       | [] => (-1)%Z
       | _ :: s' => find_from s' sub (i + 1)
       end.

Definition find (s sub : str) : Z := find_from s sub 0.

(** A slice bound as CPython's [PySlice_AdjustIndices] normalises it (step 1):
    a negative bound counts from the end, and the result is clamped to
    [0 .. len]. *)
Definition adjust (i n : Z) : Z :=
  if (i <? 0)%Z then (if (i + n <? 0)%Z then 0%Z else (i + n)%Z)
  else if (n <? i)%Z then n else i.

(** [s[a:b]] *)
Definition slice (s : str) (a b : Z) : str :=
  let n := len s in
  let a' := adjust a n in
  let b' := adjust b n in
  firstn (Z.to_nat (b' - a')) (skipn (Z.to_nat a') s).

(** [str.isspace] on one code point: the code points CPython's
    [_PyUnicode_IsWhitespace] accepts. *)
Definition isspace (c : char) : bool :=
  ((9 <=? c) && (c <=? 13) || (28 <=? c) && (c <=? 32)
   || (c =? 133) || (c =? 160) || (c =? 5760)
   || (8192 <=? c) && (c <=? 8202)
   || (c =? 8232) || (c =? 8233) || (c =? 8239) || (c =? 8287)
   || (c =? 12288))%N.

Fixpoint lstrip (s : str) : str :=
  match s with
  | [] => []
  | c :: s' => if isspace c then lstrip s' else s
  end.

Definition rstrip (s : str) : str := rev (lstrip (rev s)).

(** [s.strip()] *)
Definition strip (s : str) : str := rstrip (lstrip s).

(** [str(k)] for a non-negative integer. *)
Definition str_of_nat (k : nat) : str :=
  lit (NilEmpty.string_of_uint (Nat.to_uint k)).

(** [sep.join(parts)] *)
Fixpoint join (sep : str) (parts : list str) : str :=
  match parts with
  | [] => []
  | [p] => p
  | p :: rest => p ++ sep ++ join sep rest
  end.

End Py.

Import Py.


(** ** Exceptions, the outside world and the method monad *)

(** The exceptions the three modules can raise.  [ValueError] is the only one
    the repository raises itself; every other exception comes out of an
    external collaborator (the hosted model, the file system) and carries
    whatever that collaborator reports. *)
Inductive exn (failure : Type) : Type :=
| ValueError (msg : str)
| ExternalError (f : failure).

Arguments ValueError {failure} msg.
Arguments ExternalError {failure} f.

Inductive result (E A : Type) : Type :=
| Ok (a : A)
| Raise (e : E).

Arguments Ok {E A} a.
Arguments Raise {E A} e.

(** JSON documents handed to [json.dump]; object keys keep insertion order. *)
#[warnings="-register-all"]
Inductive json : Type :=
| JString (s : str)
| JArray (items : list json)
| JObject (fields : list (str * json)).

(** The external collaborators.  [World] is everything outside the three
    modules: the remote model (including the chat session and its
    conversation context), the clock and the file system.
    - [generate_content p] is [self.model.generate_content(p).text];
    - [send_message d] is [self.chat.send_message(d).text];
    - [now_isoformat] is [datetime.now().isoformat()];
    - [dump_json path doc] is [open(path, 'w')] followed by
      [json.dump(doc, f, indent=2)]. *)
Class Env : Type := {
  World : Type;
  failure : Type;
  generate_content : str -> World -> (str + failure) * World;
  send_message : str -> World -> (str + failure) * World;
  now_isoformat : World -> str * World;
  dump_json : str -> json -> World -> (unit + failure) * World
}.

Section Monad.
Context {E : Env}.

(** A method of an object with state [S]: it runs against the world and the
    object, returns or raises, and leaves both as they are at that point. *)
Definition Prog (S A : Type) : Type :=
  World * S -> result (exn failure) A * (World * S).

Definition ret {S A} (a : A) : Prog S A := fun st => (Ok a, st).

Definition raise {S A} (e : exn failure) : Prog S A := fun st => (Raise e, st).

Definition bind {S A B} (m : Prog S A) (k : A -> Prog S B) : Prog S B :=
  fun st =>
    match m st with
    | (Ok a, st') => k a st'
    | (Raise e, st') => (Raise e, st')
    end.

Definition gets {S A} (f : S -> A) : Prog S A := fun st => (Ok (f (snd st)), st).

Definition modify {S} (f : S -> S) : Prog S unit :=
  fun st => (Ok tt, (fst st, f (snd st))).

(** A call into the outside world that cannot fail. *)
Definition ask {S A} (f : World -> A * World) : Prog S A :=
  fun st => let (a, w) := f (fst st) in (Ok a, (w, snd st)).

(** A call into the outside world that may fail. *)
Definition call {S A} (f : World -> (A + failure) * World) : Prog S A :=
  fun st =>
    match f (fst st) with
    | (inl a, w) => (Ok a, (w, snd st))
    | (inr x, w) => (Raise (ExternalError x), (w, snd st))
    end.

(** A method call on a sub-object stored in a field of [S]. *)
Definition on {S T A} (get : S -> T) (set : T -> S -> S) (m : Prog T A)
  : Prog S A :=
  fun st =>
    let '(r, (w, t)) := m (fst st, get (snd st)) in
    (r, (w, set t (snd st))).
End Monad.

Notation "x <- m ;; k" := (bind m (fun x => k))
  (at level 61, m at next level, right associativity).
Notation "m ;;; k" := (bind m (fun _ => k))
  (at level 61, right associativity).

(** ** idea2draft2.py *)

Module MemoryObject.
Section WithEnv.
Context {E : Env}.

Record t : Type := Build { interactions : list str }.

Definition empty : t := Build [].

(** The f-string of [add_interaction]. *)
Definition format_interaction (timestamp : str) (k : nat) (response : str) : str :=
  lit "
<interaction timestamp=" ++ dquote ++ timestamp ++ dquote ++ lit ">
    <response" ++ str_of_nat k ++ lit ">
    " ++ response ++ lit "
    </response" ++ str_of_nat k ++ lit ">
</interaction>
".

Definition add_interaction (response : str) : Prog t unit :=
  timestamp <- ask now_isoformat ;;
  k <- gets (fun self => List.length (interactions self) + 1) ;;
  modify (fun self =>
    Build (interactions self ++ [format_interaction timestamp k response])).

Definition get_memory_string (self : t) : str :=
  join (lit "
") (interactions self).
End WithEnv.
End MemoryObject.

(** The dictionary [_parse_response] builds: always exactly these three keys. *)
Record ParsedSections : Type := {
  connected_narrative : str;
  growth_points : str;
  ai_contributions : str
}.

Module ThoughtProcessor.
Section WithEnv.
Context {E : Env}.

Record t : Type := Build {
  memory : MemoryObject.t;
  current_narrative : str;
  current_growth_points : str
}.

(** [__init__]; the model handle lives in the world. *)
Definition init : t := Build MemoryObject.empty [] [].

Definition set_memory (m : MemoryObject.t) (self : t) : t :=
  Build m (current_narrative self) (current_growth_points self).
Definition set_current_narrative (s : str) (self : t) : t :=
  Build (memory self) s (current_growth_points self).
Definition set_current_growth_points (s : str) (self : t) : t :=
  Build (memory self) (current_narrative self) s.

Definition _get_processing_prompt (brain_dump : str) : str :=
lit "You are an expert analyst who specializes in strengthening and expanding arguments. Your task is to take a brain dump of ideas and:
1. Identify the core arguments
2. Steelman each argument to its strongest form
3. Add supporting evidence and reasoning
4. Expand the implications
5. Find growth directions

Additional Guideline:
1. Do not say anything like " ++ dquote ++ lit "as mentioned in the brain dump" ++ dquote ++ lit " or anything like that.

Brain dump to analyze:
<brain_dump>
"
++ brain_dump
++ lit "
</brain_dump>

Provide your analysis in these sections:

<connected_narrative>
Build the strongest possible case for the ideas presented:
- Take each core argument and strengthen it
- Add any supporting evidence and examples that might not be mentioned in the original
- Connect ideas in ways that reinforce the main thesis
- Anticipate and address potential counterarguments
- Explore implications that strengthen the overall case
- Use clear reasoning chains to show how conclusions follow
- Structure the narrative to build a compelling case
</connected_narrative>

<growth_points>
Identify promising directions to expand the idea:
- What adjacent areas could this thesis apply to?
- What bigger implications haven't been explored?
- What industries/domains could be impacted?
- What second-order effects might emerge?
- What research areas could strengthen the case?
- What real-world applications could test these ideas?
- What related theses could be developed?

For each growth point:
1. Explain why it's promising
2. Outline initial evidence/reasoning
3. Suggest concrete next steps
4. Note potential impact
</growth_points>

<ai_contributions>
Explain how you built upon the original ideas:
- What evidence/examples did you add?
- What connections did you draw?
- What implications did you identify?
- What counterarguments did you address?
- What reasoning chains did you construct?
- What growth areas did you spot?

Be specific about your contributions so they can be evaluated and built upon.
</ai_contributions>
Be SUPER-CAREFUL about putting the different sections clearly into their own XML tags

".

Definition _get_refinement_prompt (current_narrative refinement_request : str) : str :=
lit "You are an expert writer and analyst continuing to develop a narrative about an important idea. Your task is to evolve the current narrative by incorporating new insights or addressing specific aspects while maintaining a cohesive, standalone piece.

Current narrative state:
<current_narrative>
"
++ current_narrative
++ lit "
</current_narrative>

Focus area to develop:
<refinement_focus>
"
++ refinement_request
++ lit "
</refinement_focus>

Approach this as an organic development of the ideas. The narrative should:
- Flow as a single, cohesive piece
- Naturally incorporate the requested developments
- Stand on its own as a complete narrative
- Build upon existing points without referencing them as " ++ dquote ++ lit "previous" ++ dquote ++ lit " or " ++ dquote ++ lit "earlier" ++ dquote ++ lit "
- Weave new insights seamlessly into the existing argument structure

<connected_narrative>
[Evolved narrative that naturally incorporates the refinements]
</connected_narrative>

<growth_points>
[Updated opportunities for development based on this evolution:]
- New areas opened by these developments
- Deepened aspects that invite further exploration
- Emerging connections to investigate
</growth_points>

<ai_contributions>
[How the narrative evolved:]
- Deepened aspects
- New connections drawn
- Strengthened arguments
- Added context and support
</ai_contributions>
Be SUPER-CAREFUL about putting the different sections clearly into their own XML tags
".

(** The inner helper of [_parse_response]. *)
Definition extract_tag_content (response tag : str) : str :=
  let start_tag := lit "<" ++ tag ++ lit ">" in
  let end_tag := lit "</" ++ tag ++ lit ">" in
  let start_idx := (find response start_tag + len start_tag)%Z in
  let end_idx := find response end_tag in
  strip (slice response start_idx end_idx).

Definition _parse_response (response : str) : ParsedSections :=
  {| connected_narrative := extract_tag_content response (lit "connected_narrative");
     growth_points := extract_tag_content response (lit "growth_points");
     ai_contributions := extract_tag_content response (lit "ai_contributions") |}.

Definition process_brain_dump (brain_dump : str) : Prog t ParsedSections :=
  response <- call (generate_content (_get_processing_prompt brain_dump)) ;;
  on memory set_memory (MemoryObject.add_interaction response) ;;;
  let parsed_response := _parse_response response in
  modify (set_current_narrative (connected_narrative parsed_response)) ;;;
  modify (set_current_growth_points (growth_points parsed_response)) ;;;
  ret parsed_response.

Definition refine_narrative (refinement_request : str) : Prog t ParsedSections :=
  narrative <- gets current_narrative ;;
  response <- call (generate_content
                      (_get_refinement_prompt narrative refinement_request)) ;;
  on memory set_memory (MemoryObject.add_interaction response) ;;;
  let parsed_response := _parse_response response in
  modify (set_current_narrative (connected_narrative parsed_response)) ;;;
  modify (set_current_growth_points (growth_points parsed_response)) ;;;
  ret parsed_response.

(** The dictionary [export_final_narrative] dumps. *)
Definition final_narrative_document (self : t) (timestamp : str) : json :=
  JObject [(lit "connected_narrative", JString (current_narrative self));
           (lit "growth_points", JString (current_growth_points self));
           (lit "timestamp", JString timestamp)].

Definition export_final_narrative (filename : str) : Prog t str :=
  timestamp <- ask now_isoformat ;;
  self <- gets (fun self => self) ;;
  call (dump_json filename (final_narrative_document self timestamp)) ;;;
  ret filename.
End WithEnv.
End ThoughtProcessor.

(** ** Draft2Blog.py *)

(** One entry of [BlogMemory.drafts]: the dictionary [add_draft] builds. *)
Record Draft : Type := {
  timestamp : str;
  original_draft : str;
  styled_draft : str
}.

Module BlogMemory.
Section WithEnv.
Context {E : Env}.

Record t : Type := Build { drafts : list Draft }.

Definition empty : t := Build [].

Definition add_draft (original_draft styled_draft : str) : Prog t unit :=
  timestamp <- ask now_isoformat ;;
  let entry := {| timestamp := timestamp;
                  original_draft := original_draft;
                  styled_draft := styled_draft |} in
  modify (fun self => Build (drafts self ++ [entry])).

Definition get_history (self : t) : list Draft := drafts self.

(** An entry as [json.dump] sees it. *)
Definition draft_json (d : Draft) : json :=
  JObject [(lit "timestamp", JString (timestamp d));
           (lit "original_draft", JString (original_draft d));
           (lit "styled_draft", JString (styled_draft d))].

(** The dictionary [export_memory] dumps. *)
Definition memory_document (self : t) : json :=
  JObject [(lit "drafts", JArray (map draft_json (drafts self)))].

Definition export_memory (filename : str) : Prog t unit :=
  self <- gets (fun self => self) ;;
  call (dump_json filename (memory_document self)).
End WithEnv.
End BlogMemory.

Module Draft2Blog.
Section WithEnv.
Context {E : Env}.

(** [api_key] and [config] are read only by [_setup_model], which builds the
    model and the chat session: those live in the world. *)
Record t : Type := Build { memory : BlogMemory.t }.

Definition init : t := Build BlogMemory.empty.

Definition set_memory (m : BlogMemory.t) (self : t) : t := Build m.

Definition _extract_styled_content (response : str) : result (exn failure) str :=
  let start_tag := lit "<styled_draft>" in
  let end_tag := lit "</styled_draft>" in
  let start_idx := find response start_tag in
  let end_idx := find response end_tag in
  if ((start_idx =? -1) || (end_idx =? -1))%Z
  then Raise (ValueError (lit "Could not find styled_draft tags in response"))
  else
    let start_idx := (start_idx + len start_tag)%Z in
    Ok (strip (slice response start_idx end_idx)).

(** Lines 174-175 of [convert_draft]: the draft as it is sent and recorded. *)
Definition wrap_draft (draft : str) : str :=
  if negb (startswith (strip draft) (lit "<draft>"))
  then lit "<draft>" ++ draft ++ lit "</draft>"
  else draft.

(** The [except] clause prints the exception and re-raises it, so every
    exception passes through unchanged. *)
Definition convert_draft (draft : str) : Prog t str :=
  let draft := wrap_draft draft in
  response <- call (send_message draft) ;;
  styled_content <- (fun st => (_extract_styled_content response, st)) ;;
  on memory set_memory (BlogMemory.add_draft draft styled_content) ;;;
  ret styled_content.

Definition get_conversion_history (self : t) : list Draft :=
  BlogMemory.get_history (memory self).

Definition export_history (filename : str) : Prog t unit :=
  on memory set_memory (BlogMemory.export_memory filename).
End WithEnv.
End Draft2Blog.

(** ** orchestrator.py *)

Module Orchestrator.
Section WithEnv.
Context {E : Env}.

Record t : Type := Build {
  thought_processor : ThoughtProcessor.t;
  blog_converter : Draft2Blog.t;
  current_state : option ParsedSections
}.

(** [__init__]: [current_state = None]. *)
Definition init : t := Build ThoughtProcessor.init Draft2Blog.init None.

Definition set_thought_processor (p : ThoughtProcessor.t) (self : t) : t :=
  Build p (blog_converter self) (current_state self).
Definition set_blog_converter (c : Draft2Blog.t) (self : t) : t :=
  Build (thought_processor self) c (current_state self).
Definition set_current_state (s : option ParsedSections) (self : t) : t :=
  Build (thought_processor self) (blog_converter self) s.

Definition process_initial_idea (idea : str) : Prog t ParsedSections :=
  result <- on thought_processor set_thought_processor
               (ThoughtProcessor.process_brain_dump idea) ;;
  modify (set_current_state (Some result)) ;;;
  ret result.

Definition refine_content (refinement : str) : Prog t ParsedSections :=
  result <- on thought_processor set_thought_processor
               (ThoughtProcessor.refine_narrative refinement) ;;
  modify (set_current_state (Some result)) ;;;
  ret result.

(** [not self.current_state] holds for [None] only: the dictionary stored by
    the two methods above always has three keys, hence is truthy. *)
Definition finalize_to_blog : Prog t str :=
  state <- gets current_state ;;
  match state with
  | None => raise (ValueError (lit "No content to finalize"))
  | Some sections =>
      on blog_converter set_blog_converter
         (Draft2Blog.convert_draft (connected_narrative sections))
  end.
End WithEnv.
End Orchestrator.

(** ** Stubbed collaborators

    A scripted world for running the pipeline on concrete inputs: the two
    remote entry points answer by fixed functions of the text they receive and
    log that text, the clock counts calls, and file writes succeed. *)

Module Stub.

Record world : Type := {
  ticks : nat;
  sent_prompts : list str;
  sent_messages : list str
}.

Definition fresh : world :=
  {| ticks := 0; sent_prompts := []; sent_messages := [] |}.

Definition env (model chat : str -> str + unit) : Env := {|
  World := world;
  failure := unit;
  generate_content := fun p w =>
    (model p, {| ticks := ticks w;
                 sent_prompts := sent_prompts w ++ [p];
                 sent_messages := sent_messages w |});
  send_message := fun d w =>
    (chat d, {| ticks := ticks w;
                sent_prompts := sent_prompts w;
                sent_messages := sent_messages w ++ [d] |});
  now_isoformat := fun w =>
    (str_of_nat (ticks w),
     {| ticks := S (ticks w);
        sent_prompts := sent_prompts w;
        sent_messages := sent_messages w |});
  dump_json := fun _ _ w => (inl tt, w)
|}.

(** A remote end that always answers with the same text. *)
Definition always (reply : str) : str -> str + unit := fun _ => inl reply.

(** A remote end that is down. *)
Definition down : str -> str + unit := fun _ => inr tt.

End Stub.

(** ** The relay endpoints of orchestrator.py

    [/process], [/refine] and [/finalize] each forward to one method of the
    single shared orchestrator; the handler then turns any exception into an
    HTTP 500 carrying its message.  [serve] is the forwarding step. *)

Module Relay.
Section WithEnv.
Context {E : Env}.

Inductive request : Type :=
| ProcessIdea (idea : str)
| RefineContent (refinement : str)
| FinalizeToBlog.

Inductive reply : Type :=
| Sections (sections : ParsedSections)
| BlogPost (blog_post : str).

Definition serve (q : request) : Prog Orchestrator.t reply :=
  match q with
  | ProcessIdea idea =>
      result <- Orchestrator.process_initial_idea idea ;; ret (Sections result)
  | RefineContent refinement =>
      result <- Orchestrator.refine_content refinement ;; ret (Sections result)
  | FinalizeToBlog =>
      blog_post <- Orchestrator.finalize_to_blog ;; ret (BlogPost blog_post)
  end.

(** A sequence of requests against the shared orchestrator; a failed request
    does not stop the server.  Returns the outcome of every request. *)
Fixpoint serve_all (qs : list request) (st : World * Orchestrator.t)
  : list (result (exn failure) reply) * (World * Orchestrator.t) :=
  match qs with
  | [] => ([], st)
  | q :: qs' =>
      let (r, st1) := serve q st in
      let (rs, st2) := serve_all qs' st1 in
      (r :: rs, st2)
  end.
End WithEnv.
End Relay.

(** ** The HTTP handlers of orchestrator.py

    The handlers run against the one module-level orchestrator.  A handler
    returns the body FastAPI serialises, or raises [HTTPException].
    [describe] is what [str(e)] gives for an exception raised by a
    collaborator; for the repository's own [ValueError(msg)] it is [msg]. *)

Module Endpoints.
Section WithEnv.
Context {E : Env}.
Variable describe : failure -> str.


Record RefinementRequest : Type := { refinement : str }.

Record HTTPException : Type := { status_code : nat; detail : str }.

Definition Handler : Type :=
  World * Orchestrator.t -> result HTTPException json * (World * Orchestrator.t).

(** [str(e)] *)
Definition str_of_exn (e : exn failure) : str :=
  match e with
  | ValueError msg => msg
  | ExternalError f => describe f
  end.

(** The dictionary of three sections as a response body. *)
Definition sections_json (sections : ParsedSections) : json :=
  JObject [(lit "connected_narrative", JString (connected_narrative sections));
           (lit "growth_points", JString (growth_points sections));
           (lit "ai_contributions", JString (ai_contributions sections))].

Definition health_check : Handler :=
  fun st =>
    let (now, w) := now_isoformat (fst st) in
    (Ok (JObject [(lit "status", JString (lit "healthy"));
                  (lit "timestamp", JString now)]),
     (w, snd st)).


Definition refine_content (request : RefinementRequest) : Handler :=
  fun st =>
    match Orchestrator.refine_content (refinement request) st with
    | (Ok result, st') => (Ok (sections_json result), st')
    | (Raise e, st') =>
        (Raise {| status_code := 500; detail := str_of_exn e |}, st')
    end.

Definition finalize_to_blog : Handler :=
  fun st =>
    match Orchestrator.finalize_to_blog st with
    | (Ok blog_post, st') =>
        (Ok (JObject [(lit "blog_post", JString blog_post)]), st')
    | (Raise e, st') =>
        (Raise {| status_code := 500; detail := str_of_exn e |}, st')
    end.
End WithEnv.
End Endpoints.

(** * Specification vocabulary *)

(** ** Occurrences of a substring *)

(** [sub] occurs in [s] at index [i]: [s[i:i+len(sub)] == sub]. *)
Definition occurs_at (s sub : str) (i : nat) : bool :=
  (i <=? List.length s)%nat && startswith (skipn i s) sub.

(** The first (lowest-index) occurrence of [sub] in [s] is at index [i]. *)
Definition first_occurrence (s sub : str) (i : nat) : Prop :=
  occurs_at s sub i = true /\
  forall j, (j < i)%nat -> occurs_at s sub j = false.

(** [sub] occurs nowhere in [s]. *)
Definition absent (s sub : str) : Prop :=
  forall i, occurs_at s sub i = false.

(** ** Tags and error values *)

Definition styled_open : str := lit "<styled_draft>".
Definition styled_close : str := lit "</styled_draft>".

Definition draft_open : str := lit "<draft>".
Definition draft_close : str := lit "</draft>".

Definition missing_styled_draft {F : Type} : exn F :=
  ValueError (lit "Could not find styled_draft tags in response").

Definition no_content_to_finalize {F : Type} : exn F :=
  ValueError (lit "No content to finalize").

(** ** States reached and states compared *)

Section Vocabulary.
Context {E : Env}.

(** The state of a ThoughtProcessor after it has taken in a response. *)
Definition absorbed (p : ThoughtProcessor.t) (ts response : str)
  : ThoughtProcessor.t :=
  let log := MemoryObject.interactions (ThoughtProcessor.memory p) in
  let parsed := ThoughtProcessor._parse_response response in
  ThoughtProcessor.Build
    (MemoryObject.Build
       (log ++ [MemoryObject.format_interaction ts (List.length log + 1) response]))
    (connected_narrative parsed) (growth_points parsed).

(** The state of a Draft2Blog after it has recorded a conversion. *)
Definition recorded (c : Draft2Blog.t) (ts original styled : str)
  : Draft2Blog.t :=
  Draft2Blog.Build
    (BlogMemory.Build
       (BlogMemory.drafts (Draft2Blog.memory c) ++
        [{| timestamp := ts; original_draft := original;
            styled_draft := styled |}])).

(** [n] recorded operations in a row: one [add_draft] per pair. *)
Fixpoint add_drafts (pairs : list (str * str)) : Prog BlogMemory.t unit :=
  match pairs with
  | [] => ret tt
  | (original, styled) :: rest =>
      BlogMemory.add_draft original styled ;;; add_drafts rest
  end.

Definition recorded_pair (d : Draft) : str * str :=
  (original_draft d, styled_draft d).
End Vocabulary.

(** What a ThoughtProcessor and the orchestrator retain of a response. *)
Definition reflects_only {E : Env} (o : Orchestrator.t) (response : str) : Prop :=
  let sections := ThoughtProcessor._parse_response response in
  Orchestrator.current_state o = Some sections /\
  ThoughtProcessor.current_narrative (Orchestrator.thought_processor o)
    = connected_narrative sections /\
  ThoughtProcessor.current_growth_points (Orchestrator.thought_processor o)
    = growth_points sections.

(** The retained state the failure policy speaks of: the stored narrative and
    growth points, the orchestrator's [current_state], and both session
    memories. *)
Definition same_retained_state {E : Env} (o o' : Orchestrator.t) : Prop :=
  ThoughtProcessor.current_narrative (Orchestrator.thought_processor o')
    = ThoughtProcessor.current_narrative (Orchestrator.thought_processor o) /\
  ThoughtProcessor.current_growth_points (Orchestrator.thought_processor o')
    = ThoughtProcessor.current_growth_points (Orchestrator.thought_processor o) /\
  Orchestrator.current_state o' = Orchestrator.current_state o /\
  ThoughtProcessor.memory (Orchestrator.thought_processor o')
    = ThoughtProcessor.memory (Orchestrator.thought_processor o) /\
  Draft2Blog.memory (Orchestrator.blog_converter o')
    = Draft2Blog.memory (Orchestrator.blog_converter o).

(** ** Scripted replies and sample states *)

(** A reply of the remote model that carries none of the three tag pairs. *)
Definition tagless_reply : str :=
  lit "I cannot help with that request, sorry about it.".

(** A reply of the remote model that carries all three tag pairs. *)
Definition tagged_reply : str :=
  lit "<connected_narrative>N</connected_narrative><growth_points>G</growth_points><ai_contributions>C</ai_contributions>".

Definition styled_reply : str := lit "<styled_draft>S</styled_draft>".

(** A remote model that answers the first idea and the second differently. *)
Definition two_replies (prompt : str) : str + unit :=
  if (find prompt (lit "first idea") =? -1)%Z
  then inl (lit "<connected_narrative>B1</connected_narrative><growth_points>B2</growth_points><ai_contributions>B3</ai_contributions>")
  else inl (lit "<connected_narrative>A1</connected_narrative><growth_points>A2</growth_points><ai_contributions>A3</ai_contributions>").

(** What [convert_draft] hands to the chat session, as logged by the stub. *)
Definition sent_by_convert (draft : str) : list str :=
  Stub.sent_messages
    (fst (snd (@Draft2Blog.convert_draft
                 (Stub.env Stub.down (Stub.always styled_reply))
                 draft (Stub.fresh, Draft2Blog.init)))).

(** An orchestrator that holds a narrative and one recorded conversion. *)
Definition seasoned : Orchestrator.t :=
  Orchestrator.Build
    (ThoughtProcessor.Build
       (MemoryObject.Build [MemoryObject.format_interaction (lit "0") 1 tagged_reply])
       (lit "N") (lit "G"))
    (Draft2Blog.Build
       (BlogMemory.Build
          [{| timestamp := lit "1"; original_draft := lit "<draft>N</draft>";
              styled_draft := lit "S" |}]))
    (Some {| connected_narrative := lit "N"; growth_points := lit "G";
             ai_contributions := lit "C" |}).

(** ** Vocabulary of the further properties *)

(** The tags [extract_tag_content] builds around a tag name. *)
Definition open_tag (tag : str) : str := lit "<" ++ tag ++ lit ">".
Definition close_tag (tag : str) : str := lit "</" ++ tag ++ lit ">".

(** [sub] starts nowhere inside [a], whatever follows [a]. *)
Definition clear_of (a sub : str) : Prop :=
  forall rest j, (j < List.length a)%nat -> occurs_at (a ++ rest) sub j = false.

(** No white space at either end. *)
Definition stripped (v : str) : Prop :=
  (forall c rest, v = c :: rest -> isspace c = false) /\
  (forall c rest, v = rest ++ [c] -> isspace c = false).

(** The six tags of a narrative response. *)
Definition narrative_open : str := open_tag (lit "connected_narrative").
Definition narrative_close : str := close_tag (lit "connected_narrative").
Definition growth_open : str := open_tag (lit "growth_points").
Definition growth_close : str := close_tag (lit "growth_points").
Definition contributions_open : str := open_tag (lit "ai_contributions").
Definition contributions_close : str := close_tag (lit "ai_contributions").

(** A text without the character [<]. *)
Definition plain (p : str) : Prop := ~ In 60%N p.

(** The orchestrator holds what the processor holds. *)
Definition coherent {E : Env} (o : Orchestrator.t) : Prop :=
  forall sections,
    Orchestrator.current_state o = Some sections ->
    ThoughtProcessor.current_narrative (Orchestrator.thought_processor o)
      = connected_narrative sections /\
    ThoughtProcessor.current_growth_points (Orchestrator.thought_processor o)
      = growth_points sections.

Section Counting.
Context {E : Env}.

(** One [add_interaction] per response, in order. *)
Fixpoint add_interactions (responses : list str) : Prog MemoryObject.t unit :=
  match responses with
  | [] => ret tt
  | response :: rest =>
      MemoryObject.add_interaction response ;;; add_interactions rest
  end.

(** How many requests of a run came back with sections, and with a post. *)
Fixpoint count_sections (rs : list (result (exn failure) Relay.reply)) : nat :=
  match rs with
  | [] => 0
  | Ok (Relay.Sections _) :: rs' => S (count_sections rs')
  | _ :: rs' => count_sections rs'
  end.

Fixpoint count_posts (rs : list (result (exn failure) Relay.reply)) : nat :=
  match rs with
  | [] => 0
  | Ok (Relay.BlogPost _) :: rs' => S (count_posts rs')
  | _ :: rs' => count_posts rs'
  end.

Definition interactions_of (o : Orchestrator.t) : list str :=
  MemoryObject.interactions
    (ThoughtProcessor.memory (Orchestrator.thought_processor o)).

Definition drafts_of (o : Orchestrator.t) : list Draft :=
  Draft2Blog.get_conversion_history (Orchestrator.blog_converter o).
End Counting.

(** What a request hands to the remote model, and to the chat session. *)
Definition prompts_of {E : Env} (q : Relay.request) (o : Orchestrator.t) : list str :=
  match q with
  | Relay.ProcessIdea idea => [ThoughtProcessor._get_processing_prompt idea]
  | Relay.RefineContent refinement =>
      [ThoughtProcessor._get_refinement_prompt
         (ThoughtProcessor.current_narrative (Orchestrator.thought_processor o))
         refinement]
  | Relay.FinalizeToBlog => []
  end.

Definition messages_of {E : Env} (q : Relay.request) (o : Orchestrator.t) : list str :=
  match q, Orchestrator.current_state o with
  | Relay.FinalizeToBlog, Some sections =>
      [Draft2Blog.wrap_draft (connected_narrative sections)]
  | _, _ => []
  end.

(** Blocks numbered from [k] on, one per (timestamp, response) pair. *)
Fixpoint numbered_blocks (k : nat) (stamped : list (str * str)) : list str :=
  match stamped with
  | [] => []
  | (ts, response) :: rest =>
      MemoryObject.format_interaction ts k response :: numbered_blocks (S k) rest
  end.

(** * Facts *)

(** ** The string built-ins *)

(** The built-ins on small inputs, as CPython evaluates them. *)

Example find_hit : find (lit "ab<t>x</t>") (lit "<t>") = 2%Z.
Proof. reflexivity. Qed.

Example find_miss : find (lit "abc") (lit "<t>") = (-1)%Z.
Proof. reflexivity. Qed.

Example find_empty_in_empty : find [] [] = 0%Z.
Proof. reflexivity. Qed.

Example slice_negative_stop : slice (lit "hello world") 2 (-1) = lit "llo worl".
Proof. reflexivity. Qed.

Example slice_start_past_end : slice (lit "oops") 20 (-1) = [].
Proof. reflexivity. Qed.

Example slice_stop_before_start : slice (lit "</t><t>x") 7 0 = [].
Proof. reflexivity. Qed.

Example strip_blanks_and_newlines : strip (lit "  a b
 ") = lit "a b".
Proof. reflexivity. Qed.

Example startswith_shorter : startswith (lit "<dra") (lit "<draft>") = false.
Proof. reflexivity. Qed.

Example str_of_nat_12 : str_of_nat 12 = lit "12".
Proof. reflexivity. Qed.

Lemma startswith_app (pre rest : str) : startswith (pre ++ rest) pre = true.
Proof.
  induction pre as [|p pre IH]; simpl; [reflexivity|].
  now rewrite N.eqb_refl, IH.
Qed.

Lemma startswith_split (s pre : str) :
  startswith s pre = true -> exists rest, s = pre ++ rest.
Proof.
  revert s; induction pre as [|p pre IH]; intros s H; simpl in *.
  - now exists s.
  - destruct s as [|c s]; [discriminate|].
    apply andb_true_iff in H as [Hc Hs].
    apply N.eqb_eq in Hc; subst c.
    destruct (IH _ Hs) as [rest ->].
    now exists rest.
Qed.

Lemma occurs_at_split (s sub : str) (i : nat) :
  occurs_at s sub i = true <->
  exists a b, s = a ++ sub ++ b /\ List.length a = i.
Proof.
  unfold occurs_at; split.
  - intros H. apply andb_true_iff in H as [Hi Hs].
    apply Nat.leb_le in Hi.
    destruct (startswith_split _ _ Hs) as [b Hb].
    exists (firstn i s), b; split.
    + now rewrite <- Hb, firstn_skipn.
    + rewrite length_firstn; lia.
  - intros (a & b & -> & <-).
    apply andb_true_iff; split.
    + apply Nat.leb_le. rewrite length_app; lia.
    + rewrite skipn_app, Nat.sub_diag, skipn_all; simpl.
      apply startswith_app.
Qed.

Lemma occurs_at_0 (s sub : str) : occurs_at s sub 0 = startswith s sub.
Proof. reflexivity. Qed.

Lemma occurs_at_S (c : char) (s sub : str) (i : nat) :
  occurs_at (c :: s) sub (S i) = occurs_at s sub i.
Proof. reflexivity. Qed.

Lemma find_from_absent (s sub : str) (k : Z) :
  absent s sub -> find_from s sub k = (-1)%Z.
Proof.
  revert k; induction s as [|c s IH]; intros k H.
  - specialize (H 0%nat). rewrite occurs_at_0 in H.
    simpl. now rewrite H.
  - pose proof (H 0%nat) as H0. rewrite occurs_at_0 in H0.
    cbn [find_from]. rewrite H0.
    apply IH. intros i. rewrite <- (occurs_at_S c). apply H.
Qed.

Lemma find_from_first (s sub : str) (i : nat) (k : Z) :
  first_occurrence s sub i -> find_from s sub k = (k + Z.of_nat i)%Z.
Proof.
  revert s k; induction i as [|i IH]; intros s k [Hi Hlt].
  - rewrite occurs_at_0 in Hi.
    destruct s; cbn [find_from]; rewrite Hi; lia.
  - destruct s as [|c s]; [discriminate|].
    pose proof (Hlt 0%nat ltac:(lia)) as H0. rewrite occurs_at_0 in H0.
    cbn [find_from]. rewrite H0.
    rewrite IH; [lia|]. split.
    + now rewrite <- (occurs_at_S c).
    + intros j Hj. rewrite <- (occurs_at_S c). apply Hlt; lia.
Qed.

Lemma find_from_cases (s sub : str) (k : Z) :
  (find_from s sub k = (-1)%Z /\ absent s sub) \/
  (exists i, find_from s sub k = (k + Z.of_nat i)%Z /\ first_occurrence s sub i).
Proof.
  revert k; induction s as [|c s IH]; intros k.
  - cbn [find_from]. destruct (startswith [] sub) eqn:Hs.
    + right; exists 0%nat; split; [lia|]. split; [exact Hs|]. intros j Hj; lia.
    + left; split; [reflexivity|]. intros [|i]; [exact Hs|reflexivity].
  - cbn [find_from]. destruct (startswith (c :: s) sub) eqn:Hs.
    + right; exists 0%nat; split; [lia|]. split; [exact Hs|]. intros j Hj; lia.
    + destruct (IH (k + 1)%Z) as [[Hf Ha]|(i & Hf & Hi & Hlt)].
      * left; split; [exact Hf|]. intros [|i]; [exact Hs|].
        rewrite occurs_at_S. apply Ha.
      * right; exists (S i); split; [lia|]. split.
        -- now rewrite occurs_at_S.
        -- intros [|j] Hj; [exact Hs|]. rewrite occurs_at_S. apply Hlt; lia.
Qed.

(** [str.find] returns -1 exactly when the substring occurs nowhere. *)
Lemma find_absent (s sub : str) : find s sub = (-1)%Z <-> absent s sub.
Proof.
  unfold find; split.
  - intros H. destruct (find_from_cases s sub 0) as [[_ Ha]|(i & Hf & _)];
      [exact Ha | lia].
  - apply find_from_absent.
Qed.

(** [str.find] returns the index of the first occurrence. *)
Lemma find_first (s sub : str) (i : nat) :
  find s sub = Z.of_nat i <-> first_occurrence s sub i.
Proof.
  unfold find; split.
  - intros H. destruct (find_from_cases s sub 0) as [[Hf _]|(j & Hf & Hj)];
      [lia|].
    assert (j = i) by lia. now subst j.
  - intros H. now rewrite (find_from_first 0 H).
Qed.

Lemma find_range (s sub : str) :
  find s sub = (-1)%Z \/ (0 <= find s sub <= len s)%Z.
Proof.
  unfold find. destruct (find_from_cases s sub 0) as [[Hf _]|(i & Hf & Hi & _)].
  - now left.
  - right. unfold occurs_at in Hi. apply andb_true_iff in Hi as [Hi _].
    apply Nat.leb_le in Hi. unfold len. lia.
Qed.

Lemma adjust_id (i n : Z) : (0 <= i <= n)%Z -> adjust i n = i.
Proof.
  intros H. unfold adjust.
  destruct (Z.ltb_spec i 0); [lia|].
  destruct (Z.ltb_spec n i); lia.
Qed.

(** Slicing out the middle of a concatenation. *)
Lemma slice_middle (a x b : str) :
  slice (a ++ x ++ b) (len a) (len a + len x) = x.
Proof.
  unfold slice, len.
  rewrite !adjust_id by (rewrite !length_app; lia).
  replace (Z.to_nat (Z.of_nat (List.length a) + Z.of_nat (List.length x)
                     - Z.of_nat (List.length a))) with (List.length x) by lia.
  rewrite Nat2Z.id, skipn_app, skipn_all, Nat.sub_diag; simpl.
  rewrite firstn_app, firstn_all, Nat.sub_diag; simpl.
  apply app_nil_r.
Qed.

Lemma len_app (a b : str) : len (a ++ b) = (len a + len b)%Z.
Proof. unfold len. rewrite length_app. lia. Qed.

(** An occurrence of [c :: sub] at [i] puts [c] at index [i]. *)
Lemma occurs_at_head (s sub : str) (c : char) (i : nat) :
  occurs_at s (c :: sub) i = true -> nth_error s i = Some c.
Proof.
  intros H. apply occurs_at_split in H as (a & b & -> & <-).
  rewrite nth_error_app2 by lia. now rewrite Nat.sub_diag.
Qed.

Lemma occurs_at_app (a s sub : str) (k : nat) :
  occurs_at (a ++ s) sub (List.length a + k) = occurs_at s sub k.
Proof.
  unfold occurs_at. rewrite length_app, skipn_app.
  replace (List.length a + k - List.length a)%nat with k by lia.
  rewrite skipn_all2 by lia. simpl. f_equal.
  destruct (Nat.leb_spec k (List.length s));
    destruct (Nat.leb_spec (List.length a + k) (List.length a + List.length s));
    lia || reflexivity.
Qed.

(** The close tag does not start inside the open tag. *)
Lemma close_not_in_open (rest : str) (k : nat) :
  (k < List.length styled_open)%nat ->
  occurs_at (styled_open ++ rest) styled_close k = false.
Proof.
  intros Hk.
  do 14 (destruct k as [|k]; [reflexivity|]).
  simpl in Hk. lia.
Qed.

Lemma first_open_plain (pre rest : str) :
  ~ In 60%N pre ->
  first_occurrence (pre ++ styled_open ++ rest) styled_open (List.length pre).
Proof.
  intros Hpre. split.
  - apply occurs_at_split. now exists pre, rest.
  - intros j Hj. destruct (occurs_at _ _ j) eqn:Ho; [|reflexivity].
    apply occurs_at_head in Ho.
    rewrite nth_error_app1 in Ho by exact Hj.
    apply nth_error_In in Ho. contradiction.
Qed.

Lemma first_close_plain (pre X post : str) :
  ~ In 60%N pre -> ~ In 60%N X ->
  first_occurrence (pre ++ styled_open ++ X ++ styled_close ++ post)
    styled_close (List.length pre + List.length styled_open + List.length X).
Proof.
  intros Hpre HX. split.
  - apply occurs_at_split. exists (pre ++ styled_open ++ X), post. split.
    + now rewrite <- !app_assoc.
    + rewrite !length_app. lia.
  - intros j Hj. destruct (occurs_at _ _ j) eqn:Ho; [|reflexivity].
    destruct (Nat.lt_ge_cases j (List.length pre)) as [Hlt|Hge].
    + apply occurs_at_head in Ho.
      rewrite nth_error_app1 in Ho by exact Hlt.
      apply nth_error_In in Ho. contradiction.
    + replace j with (List.length pre + (j - List.length pre))%nat in Ho by lia.
      rewrite occurs_at_app in Ho.
      destruct (Nat.lt_ge_cases (j - List.length pre) (List.length styled_open))
        as [Hin|Hout].
      * now rewrite close_not_in_open in Ho.
      * replace (j - List.length pre)%nat
          with (List.length styled_open
                + (j - List.length pre - List.length styled_open))%nat
          in Ho by lia.
        rewrite occurs_at_app in Ho.
        apply occurs_at_head in Ho.
        rewrite nth_error_app1 in Ho by lia.
        apply nth_error_In in Ho. contradiction.
Qed.

(** ** The tag extractor of Draft2Blog *)

Section Extractor.
Context {E : Env}.

Lemma extract_styled_content_found (s : str) (i j : nat) :
  first_occurrence s styled_open i ->
  first_occurrence s styled_close j ->
  Draft2Blog._extract_styled_content s =
  Ok (strip (slice s (Z.of_nat i + len styled_open) (Z.of_nat j))).
Proof.
  intros Hi Hj. apply find_first in Hi, Hj.
  unfold Draft2Blog._extract_styled_content.
  fold styled_open styled_close. rewrite Hi, Hj.
  destruct (Z.eqb_spec (Z.of_nat i) (-1)); [lia|].
  destruct (Z.eqb_spec (Z.of_nat j) (-1)); [lia|].
  reflexivity.
Qed.

Lemma extract_styled_content_missing (s : str) :
  absent s styled_open \/ absent s styled_close ->
  Draft2Blog._extract_styled_content s = Raise missing_styled_draft.
Proof.
  intros H. unfold Draft2Blog._extract_styled_content.
  fold styled_open styled_close.
  destruct H as [H|H]; apply find_absent in H; rewrite H.
  - reflexivity.
  - now rewrite orb_true_r.
Qed.

Lemma extract_styled_content_between (pre X post : str) :
  let s := pre ++ styled_open ++ X ++ styled_close ++ post in
  first_occurrence s styled_open (List.length pre) ->
  first_occurrence s styled_close
    (List.length pre + List.length styled_open + List.length X) ->
  Draft2Blog._extract_styled_content s = Ok (strip X).
Proof.
  intros s Ho Hc.
  rewrite (extract_styled_content_found Ho Hc). do 2 f_equal.
  subst s.
  replace (pre ++ styled_open ++ X ++ styled_close ++ post)
    with ((pre ++ styled_open) ++ X ++ (styled_close ++ post))
    by now rewrite <- !app_assoc.
  replace (Z.of_nat (List.length pre) + len styled_open)%Z
    with (len (pre ++ styled_open)) by (rewrite len_app; reflexivity).
  replace (Z.of_nat (List.length pre + List.length styled_open + List.length X))
    with (len (pre ++ styled_open) + len X)%Z
    by (rewrite len_app; unfold len; lia).
  apply slice_middle.
Qed.

(** A sufficient condition for the tags around [X] to be the first ones:
    neither the text before the open tag nor [X] holds a [<]. *)
Lemma extract_styled_content_plain (pre X post : str) :
  ~ In 60%N pre -> ~ In 60%N X ->
  Draft2Blog._extract_styled_content
    (pre ++ styled_open ++ X ++ styled_close ++ post) = Ok (strip X).
Proof.
  intros Hpre HX. apply extract_styled_content_between.
  - now apply first_open_plain.
  - now apply first_close_plain.
Qed.

(** C4.  Tag Extractor ([Draft2Blog._extract_styled_content]).
    If the response is [pre ++ <styled_draft> ++ X ++ </styled_draft> ++ post]
    and these two tags are the first open tag and the first close tag of the
    response (no tag collisions), extraction returns [strip X]; if the open
    tag or the close tag occurs nowhere in the response, extraction raises
    the missing-section [ValueError]. *)
Theorem extract_styled_content_spec (s : str) :
  (forall pre X post,
      s = pre ++ styled_open ++ X ++ styled_close ++ post ->
      first_occurrence s styled_open (List.length pre) ->
      first_occurrence s styled_close
        (List.length pre + List.length styled_open + List.length X) ->
      Draft2Blog._extract_styled_content s = Ok (strip X)) /\
  (absent s styled_open \/ absent s styled_close ->
   Draft2Blog._extract_styled_content s = Raise missing_styled_draft).
Proof.
  split.
  - intros pre X post -> Ho Hc.
    now apply extract_styled_content_between.
  - apply extract_styled_content_missing.
Qed.
End Extractor.

(** C4 at a concrete response: text around the tags, blanks around the
    content; and at a response whose close tag is missing. *)
Lemma extract_styled_content_spec_witness :
  @Draft2Blog._extract_styled_content (Stub.env Stub.down Stub.down)
    (lit "Here you go: <styled_draft>
  A post. </styled_draft> Enjoy") = Ok (lit "A post.") /\
  @Draft2Blog._extract_styled_content (Stub.env Stub.down Stub.down)
    (lit "<styled_draft>A post.") = Raise missing_styled_draft.
Proof.
  split.
  - apply (proj1 (@extract_styled_content_spec (Stub.env Stub.down Stub.down) _)
             (lit "Here you go: ") (lit "
  A post. ") (lit " Enjoy")).
    + reflexivity.
    + apply find_first. vm_compute. reflexivity.
    + apply find_first. vm_compute. reflexivity.
  - apply (proj2 (@extract_styled_content_spec (Stub.env Stub.down Stub.down) _)).
    right. apply find_absent. vm_compute. reflexivity.
Defined.

(** ** Running the methods

    Each method unfolded once into what it does to the world and the object,
    by cases on what the collaborators answer. *)

Ltac step_prog :=
  unfold bind, call, ask, on, gets, modify, ret, raise; simpl.

Section Runs.
Context {E : Env}.

Lemma process_brain_dump_run (brain_dump : str) (w : World)
      (p : ThoughtProcessor.t) :
  ThoughtProcessor.process_brain_dump brain_dump (w, p) =
  match generate_content (ThoughtProcessor._get_processing_prompt brain_dump) w with
  | (inl response, w1) =>
      let (ts, w2) := now_isoformat w1 in
      (Ok (ThoughtProcessor._parse_response response),
       (w2, absorbed p ts response))
  | (inr f, w1) => (Raise (ExternalError f), (w1, p))
  end.
Proof.
  unfold ThoughtProcessor.process_brain_dump, MemoryObject.add_interaction.
  step_prog.
  destruct (generate_content _ w) as [[response|f] w1]; [|reflexivity].
  simpl. destruct (now_isoformat w1) as [ts w2]. reflexivity.
Qed.

Lemma refine_narrative_run (request : str) (w : World)
      (p : ThoughtProcessor.t) :
  ThoughtProcessor.refine_narrative request (w, p) =
  match generate_content
          (ThoughtProcessor._get_refinement_prompt
             (ThoughtProcessor.current_narrative p) request) w with
  | (inl response, w1) =>
      let (ts, w2) := now_isoformat w1 in
      (Ok (ThoughtProcessor._parse_response response),
       (w2, absorbed p ts response))
  | (inr f, w1) => (Raise (ExternalError f), (w1, p))
  end.
Proof.
  unfold ThoughtProcessor.refine_narrative, MemoryObject.add_interaction.
  step_prog.
  destruct (generate_content _ w) as [[response|f] w1]; [|reflexivity].
  simpl. destruct (now_isoformat w1) as [ts w2]. reflexivity.
Qed.

Lemma convert_draft_run (draft : str) (w : World) (c : Draft2Blog.t) :
  Draft2Blog.convert_draft draft (w, c) =
  match send_message (Draft2Blog.wrap_draft draft) w with
  | (inl response, w1) =>
      match Draft2Blog._extract_styled_content response with
      | Ok styled =>
          let (ts, w2) := now_isoformat w1 in
          (Ok styled, (w2, recorded c ts (Draft2Blog.wrap_draft draft) styled))
      | Raise e => (Raise e, (w1, c))
      end
  | (inr f, w1) => (Raise (ExternalError f), (w1, c))
  end.
Proof.
  unfold Draft2Blog.convert_draft, BlogMemory.add_draft.
  step_prog.
  destruct (send_message _ w) as [[response|f] w1]; [|reflexivity].
  simpl. destruct (Draft2Blog._extract_styled_content response); [|reflexivity].
  destruct (now_isoformat w1) as [ts w2]. destruct c. reflexivity.
Qed.

Lemma process_initial_idea_run (idea : str) (w : World) (o : Orchestrator.t) :
  Orchestrator.process_initial_idea idea (w, o) =
  match ThoughtProcessor.process_brain_dump idea
          (w, Orchestrator.thought_processor o) with
  | (Ok sections, (w', p')) =>
      (Ok sections,
       (w', Orchestrator.Build p' (Orchestrator.blog_converter o) (Some sections)))
  | (Raise e, (w', p')) =>
      (Raise e,
       (w', Orchestrator.Build p' (Orchestrator.blog_converter o)
              (Orchestrator.current_state o)))
  end.
Proof.
  unfold Orchestrator.process_initial_idea. step_prog.
  destruct (ThoughtProcessor.process_brain_dump _ _) as [[sections|e] [w' p']];
    reflexivity.
Qed.

Lemma refine_content_run (request : str) (w : World) (o : Orchestrator.t) :
  Orchestrator.refine_content request (w, o) =
  match ThoughtProcessor.refine_narrative request
          (w, Orchestrator.thought_processor o) with
  | (Ok sections, (w', p')) =>
      (Ok sections,
       (w', Orchestrator.Build p' (Orchestrator.blog_converter o) (Some sections)))
  | (Raise e, (w', p')) =>
      (Raise e,
       (w', Orchestrator.Build p' (Orchestrator.blog_converter o)
              (Orchestrator.current_state o)))
  end.
Proof.
  unfold Orchestrator.refine_content. step_prog.
  destruct (ThoughtProcessor.refine_narrative _ _) as [[sections|e] [w' p']];
    reflexivity.
Qed.

Lemma finalize_to_blog_run (w : World) (o : Orchestrator.t) :
  Orchestrator.finalize_to_blog (w, o) =
  match Orchestrator.current_state o with
  | None => (Raise (ValueError (lit "No content to finalize")), (w, o))
  | Some sections =>
      let '(r, (w', c')) :=
        Draft2Blog.convert_draft (connected_narrative sections)
          (w, Orchestrator.blog_converter o) in
      (r, (w', Orchestrator.Build (Orchestrator.thought_processor o) c'
                 (Orchestrator.current_state o)))
  end.
Proof.
  unfold Orchestrator.finalize_to_blog. destruct o as [p c [sections|]];
    step_prog; reflexivity.
Qed.
End Runs.

(** ** Missing sections in the narrative processor *)

Section NarrativeErrors.
Context {E : Env}.

(** [process_brain_dump] raises only when the remote call does: whatever the
    response holds, it is parsed, stored and returned. *)
Lemma process_brain_dump_accepts (brain_dump response : str) (w w1 : World)
      (p : ThoughtProcessor.t) :
  generate_content (ThoughtProcessor._get_processing_prompt brain_dump) w
    = (inl response, w1) ->
  fst (ThoughtProcessor.process_brain_dump brain_dump (w, p))
    = Ok (ThoughtProcessor._parse_response response).
Proof.
  intros H. rewrite process_brain_dump_run, H.
  now destruct (now_isoformat w1).
Qed.

Lemma refine_narrative_accepts (request response : str) (w w1 : World)
      (p : ThoughtProcessor.t) :
  generate_content
    (ThoughtProcessor._get_refinement_prompt
       (ThoughtProcessor.current_narrative p) request) w
    = (inl response, w1) ->
  fst (ThoughtProcessor.refine_narrative request (w, p))
    = Ok (ThoughtProcessor._parse_response response).
Proof.
  intros H. rewrite refine_narrative_run, H.
  now destruct (now_isoformat w1).
Qed.

(** Neither narrative operation ever raises a [ValueError]. *)
Lemma process_initial_idea_no_value_error (idea msg : str) (w : World)
      (o : Orchestrator.t) :
  fst (Orchestrator.process_initial_idea idea (w, o)) <> Raise (ValueError msg).
Proof.
  rewrite process_initial_idea_run, process_brain_dump_run.
  destruct (generate_content _ w) as [[response|f] w1]; simpl.
  - destruct (now_isoformat w1); simpl. discriminate.
  - discriminate.
Qed.

Lemma refine_content_no_value_error (request msg : str) (w : World)
      (o : Orchestrator.t) :
  fst (Orchestrator.refine_content request (w, o)) <> Raise (ValueError msg).
Proof.
  rewrite refine_content_run, refine_narrative_run.
  destruct (generate_content _ w) as [[response|f] w1]; simpl.
  - destruct (now_isoformat w1); simpl. discriminate.
  - discriminate.
Qed.
End NarrativeErrors.

(** C1.  The claim: a response lacking one of the three tag pairs makes
    [process] (and [process_initial_idea]) fail with a missing-section error,
    and the orchestrator stays EMPTY.  The code at a reply with no tag at all:
    [process_initial_idea] returns normally, each section being a slice of the
    reply cut at the bogus indices [-1 + len(start_tag)] and [-1], and
    [current_state] is set to that result. *)
Theorem process_initial_idea_tagless_reply :
  absent tagless_reply (lit "<connected_narrative>") /\
  absent tagless_reply (lit "<growth_points>") /\
  absent tagless_reply (lit "<ai_contributions>") /\
  let E := Stub.env (Stub.always tagless_reply) Stub.down in
  let sections :=
    {| connected_narrative := lit "hat request, sorry about it";
       growth_points := lit "with that request, sorry about it";
       ai_contributions := lit "h that request, sorry about it" |} in
  let '(r, (_, o)) :=
    @Orchestrator.process_initial_idea E (lit "hello")
      (Stub.fresh, Orchestrator.init) in
  r = Ok sections /\
  Orchestrator.current_state o = Some sections.
Proof.
  repeat (split; [apply find_absent; vm_compute; reflexivity|]).
  vm_compute. split; reflexivity.
Qed.

(** C2.  The claim: a refinement requested before any successful [process]
    fails with a "no content to refine" error and issues no remote call.  The
    code on a freshly created orchestrator: [refine_content] sends the
    refinement prompt built around the empty narrative to the remote model,
    returns the parsed reply and stores it as [current_state]. *)
Theorem refine_content_on_fresh_orchestrator :
  let E := Stub.env (Stub.always tagged_reply) Stub.down in
  let request := lit "shorter" in
  let '(r, (w, o)) :=
    @Orchestrator.refine_content E request (Stub.fresh, Orchestrator.init) in
  r = Ok {| connected_narrative := lit "N";
            growth_points := lit "G";
            ai_contributions := lit "C" |} /\
  Stub.sent_prompts w = [ThoughtProcessor._get_refinement_prompt [] request] /\
  Orchestrator.current_state o <> None.
Proof.
  vm_compute. repeat split. discriminate.
Qed.

(** C3.  The claim: [finalize_to_blog] raises "No content to finalize" if and
    only if no [process] call has succeeded since the orchestrator was created.
    The code on a fresh orchestrator that served one refinement and no
    [process] at all: [finalize_to_blog] does not raise and returns the styled
    post. *)
Theorem finalize_after_refine_only :
  let E := Stub.env (Stub.always tagged_reply) (Stub.always styled_reply) in
  let '(rs, (w, _)) :=
    @Relay.serve_all E
      [Relay.RefineContent (lit "shorter"); Relay.FinalizeToBlog]
      (Stub.fresh, Orchestrator.init) in
  rs = [Ok (Relay.Sections {| connected_narrative := lit "N";
                              growth_points := lit "G";
                              ai_contributions := lit "C" |});
        Ok (Relay.BlogPost (lit "S"))] /\
  Stub.sent_messages w = [lit "<draft>N</draft>"].
Proof.
  vm_compute. split; reflexivity.
Qed.

(** ** The finalize guard *)

Section FinalizeGuard.
Context {E : Env}.

Lemma convert_draft_not_no_content (draft : str) (w : World)
      (c : Draft2Blog.t) :
  fst (Draft2Blog.convert_draft draft (w, c)) <> Raise no_content_to_finalize.
Proof.
  rewrite convert_draft_run.
  destruct (send_message _ w) as [[response|f] w1]; simpl; [|discriminate].
  unfold Draft2Blog._extract_styled_content.
  destruct (_ || _)%bool; simpl.
  - intros H. inversion H.
  - destruct (now_isoformat w1); simpl. discriminate.
Qed.

(** The guard of [finalize_to_blog] fires exactly when [current_state] is
    [None]; otherwise the stored [connected_narrative] goes to
    [convert_draft]. *)
Lemma finalize_guard (w : World) (o : Orchestrator.t) :
  (fst (Orchestrator.finalize_to_blog (w, o)) = Raise no_content_to_finalize
   <-> Orchestrator.current_state o = None) /\
  (forall sections,
      Orchestrator.current_state o = Some sections ->
      fst (Orchestrator.finalize_to_blog (w, o)) =
      fst (Draft2Blog.convert_draft (connected_narrative sections)
             (w, Orchestrator.blog_converter o))).
Proof.
  rewrite finalize_to_blog_run. split.
  - destruct (Orchestrator.current_state o) as [sections|] eqn:Hs.
    + pose proof (convert_draft_not_no_content (connected_narrative sections)
                    w (Orchestrator.blog_converter o)) as Hne.
      destruct (Draft2Blog.convert_draft _ _) as [r [w' c']]; simpl in *.
      split; [intros H; contradiction | discriminate].
    + split; reflexivity.
  - intros sections Hs. rewrite Hs.
    now destruct (Draft2Blog.convert_draft _ _) as [r [w' c']].
Qed.

(** A successful [process_initial_idea] leaves [current_state] defined. *)
Lemma process_initial_idea_defines_state (idea : str) (w w' : World)
      (o o' : Orchestrator.t) (sections : ParsedSections) :
  Orchestrator.process_initial_idea idea (w, o) = (Ok sections, (w', o')) ->
  Orchestrator.current_state o' = Some sections.
Proof.
  rewrite process_initial_idea_run.
  destruct (ThoughtProcessor.process_brain_dump _ _) as [[s|e] [w1 p1]];
    intros H; inversion H; subst; reflexivity.
Qed.

(** Once defined, [current_state] stays defined whatever is served next. *)
Lemma serve_keeps_state_defined (q : Relay.request) (w : World)
      (o : Orchestrator.t) :
  Orchestrator.current_state o <> None ->
  Orchestrator.current_state (snd (snd (Relay.serve q (w, o)))) <> None.
Proof.
  intros Hs. destruct q as [idea|refinement|]; unfold Relay.serve, bind, ret.
  - rewrite process_initial_idea_run.
    destruct (ThoughtProcessor.process_brain_dump _ _) as [[s|e] [w1 p1]];
      simpl; [discriminate | exact Hs].
  - rewrite refine_content_run.
    destruct (ThoughtProcessor.refine_narrative _ _) as [[s|e] [w1 p1]];
      simpl; [discriminate | exact Hs].
  - rewrite finalize_to_blog_run.
    destruct (Orchestrator.current_state o) as [sections|] eqn:Hc;
      [|contradiction].
    destruct (Draft2Blog.convert_draft _ _) as [[s|e] [w1 c1]]; simpl;
      discriminate.
Qed.
End FinalizeGuard.

(** ** Wrapping the draft *)

Lemma lstrip_app_nonspace (x y : str) (c : char) :
  isspace c = false -> lstrip (x ++ c :: y) = lstrip x ++ c :: y.
Proof.
  intros Hc. induction x as [|a x IH]; simpl.
  - now rewrite Hc.
  - destruct (isspace a); [exact IH | reflexivity].
Qed.

(** [rstrip] never cuts at or before a character that is not white space. *)
Lemma rstrip_app_nonspace (x y : str) (c : char) :
  isspace c = false -> rstrip (x ++ c :: y) = x ++ c :: rstrip y.
Proof.
  intros Hc. unfold rstrip.
  rewrite rev_app_distr. simpl. rewrite <- app_assoc. simpl.
  rewrite lstrip_app_nonspace by exact Hc.
  rewrite rev_app_distr. simpl. rewrite rev_involutive, <- app_assoc.
  reflexivity.
Qed.

(** A text that begins with the open tag still does once stripped. *)
Lemma strip_keeps_draft_open (rest : str) :
  startswith (strip (draft_open ++ rest)) draft_open = true.
Proof.
  unfold strip.
  change (lstrip (draft_open ++ rest)) with (lit "<draft" ++ 62%N :: rest).
  rewrite rstrip_app_nonspace by reflexivity.
  reflexivity.
Qed.

Section Wrapping.
Context {E : Env}.

(** An input that starts with the open tag is passed through unchanged. *)
Lemma wrap_draft_wrapped (draft : str) :
  startswith draft draft_open = true -> Draft2Blog.wrap_draft draft = draft.
Proof.
  intros H. destruct (startswith_split _ _ H) as [rest ->].
  unfold Draft2Blog.wrap_draft. fold draft_open.
  now rewrite strip_keeps_draft_open.
Qed.

Lemma wrap_draft_unwrapped (draft : str) :
  startswith (strip draft) draft_open = false ->
  Draft2Blog.wrap_draft draft = draft_open ++ draft ++ draft_close.
Proof.
  intros H. unfold Draft2Blog.wrap_draft. fold draft_open.
  now rewrite H.
Qed.

(** The wrapping step is idempotent as a function. *)
Lemma wrap_draft_idempotent (draft : str) :
  Draft2Blog.wrap_draft (Draft2Blog.wrap_draft draft) = Draft2Blog.wrap_draft draft.
Proof.
  destruct (startswith (strip draft) draft_open) eqn:H.
  - assert (Hid : Draft2Blog.wrap_draft draft = draft)
      by (unfold Draft2Blog.wrap_draft; fold draft_open; now rewrite H).
    now rewrite !Hid.
  - rewrite (wrap_draft_unwrapped _ H).
    apply wrap_draft_wrapped, startswith_app.
Qed.

(** C5 (amended).  For every inner text [X] whose stripped form does not
    start with [<draft>], [convert_draft] on [<draft>X</draft>] and on [X]
    hand the same string [<draft>X</draft>] to the remote call, and behave
    alike from there on; and every input that starts with the open tag
    is sent as it is. *)
Theorem convert_draft_wrapping (X : str) :
  startswith (strip X) draft_open = false ->
  Draft2Blog.wrap_draft (draft_open ++ X ++ draft_close)
    = draft_open ++ X ++ draft_close /\
  Draft2Blog.wrap_draft X = draft_open ++ X ++ draft_close /\
  (forall st, Draft2Blog.convert_draft (draft_open ++ X ++ draft_close) st
              = Draft2Blog.convert_draft X st) /\
  (forall draft w c,
      startswith draft draft_open = true ->
      Draft2Blog.wrap_draft draft = draft /\
      Draft2Blog.convert_draft draft (w, c) =
      match send_message draft w with
      | (inl response, w1) =>
          match Draft2Blog._extract_styled_content response with
          | Ok styled =>
              let (ts, w2) := now_isoformat w1 in
              (Ok styled, (w2, recorded c ts draft styled))
          | Raise e => (Raise e, (w1, c))
          end
      | (inr f, w1) => (Raise (ExternalError f), (w1, c))
      end).
Proof.
  intros HX.
  assert (Hw : Draft2Blog.wrap_draft (draft_open ++ X ++ draft_close)
               = draft_open ++ X ++ draft_close)
    by (apply wrap_draft_wrapped, startswith_app).
  pose proof (wrap_draft_unwrapped X HX) as Hu.
  repeat split.
  - exact Hw.
  - exact Hu.
  - intros [w c]. now rewrite !convert_draft_run, Hw, Hu.
  - now apply wrap_draft_wrapped.
  - rewrite convert_draft_run, wrap_draft_wrapped by assumption. reflexivity.
Qed.
End Wrapping.

(** C5 at the inner text [hello]: wrapped or not, [<draft>hello</draft>] is
    what goes out. *)
Lemma convert_draft_wrapping_witness :
  sent_by_convert (lit "<draft>hello</draft>") = [lit "<draft>hello</draft>"] /\
  sent_by_convert (lit "hello") = [lit "<draft>hello</draft>"].
Proof.
  destruct (@convert_draft_wrapping
              (Stub.env Stub.down (Stub.always styled_reply))
              (lit "hello") eq_refl) as (_ & _ & Heq & _).
  unfold sent_by_convert.
  change (lit "<draft>hello</draft>")
    with (draft_open ++ lit "hello" ++ draft_close).
  rewrite Heq. split; reflexivity.
Defined.

(** C5 as stated fails at an inner text that itself starts with the open tag:
    [convert_draft] sends [<draft>A</draft>] as it is, and sends its wrapped
    form [<draft><draft>A</draft></draft>] as it is, so the two calls differ
    in what reaches the remote model. *)
Lemma convert_draft_wrapping_counterexample :
  let X := lit "<draft>A</draft>" in
  sent_by_convert (draft_open ++ X ++ draft_close) <> sent_by_convert X.
Proof.
  vm_compute. discriminate.
Qed.

(** ** Session memory *)

Section SessionMemory.
Context {E : Env}.

Lemma add_draft_run (original styled : str) (w : World) (m : BlogMemory.t) :
  BlogMemory.add_draft original styled (w, m) =
  let (ts, w1) := now_isoformat w in
  (Ok tt, (w1, BlogMemory.Build
                 (BlogMemory.drafts m ++
                  [{| timestamp := ts; original_draft := original;
                      styled_draft := styled |}]))).
Proof.
  unfold BlogMemory.add_draft. step_prog.
  now destruct (now_isoformat w).
Qed.

Lemma add_drafts_run (pairs : list (str * str)) (w : World)
      (m : BlogMemory.t) :
  exists w' added,
    add_drafts pairs (w, m)
      = (Ok tt, (w', BlogMemory.Build (BlogMemory.drafts m ++ added))) /\
    map recorded_pair added = pairs.
Proof.
  revert w m; induction pairs as [|[original styled] rest IH]; intros w m.
  - exists w, []. destruct m. simpl. now rewrite app_nil_r.
  - cbn [add_drafts]. unfold bind. rewrite add_draft_run.
    destruct (now_isoformat w) as [ts w1].
    destruct (IH w1 (BlogMemory.Build
                       (BlogMemory.drafts m ++
                        [{| timestamp := ts; original_draft := original;
                            styled_draft := styled |}])))
      as (w' & added & Hrun & Hadded).
    exists w', ({| timestamp := ts; original_draft := original;
                   styled_draft := styled |} :: added).
    split.
    + rewrite Hrun. simpl. now rewrite <- app_assoc.
    + simpl. now rewrite Hadded.
Qed.

(** [export_memory] hands the document to the writer and leaves the log alone. *)
Lemma export_memory_run (filename : str) (w : World) (m : BlogMemory.t) :
  BlogMemory.export_memory filename (w, m) =
  match dump_json filename (BlogMemory.memory_document m) w with
  | (inl _, w1) => (Ok tt, (w1, m))
  | (inr f, w1) => (Raise (ExternalError f), (w1, m))
  end.
Proof.
  unfold BlogMemory.export_memory. step_prog.
  destruct (dump_json _ _ w) as [[[]|f] w1]; reflexivity.
Qed.

(** Every request served keeps the drafts recorded so far, in place and
    unchanged, at the front of the log. *)
Lemma serve_extends_history (q : Relay.request) (w : World)
      (o : Orchestrator.t) :
  exists added,
    Draft2Blog.get_conversion_history
      (Orchestrator.blog_converter (snd (snd (Relay.serve q (w, o)))))
    = Draft2Blog.get_conversion_history (Orchestrator.blog_converter o)
      ++ added.
Proof.
  destruct q as [idea|refinement|]; unfold Relay.serve, bind, ret.
  - rewrite process_initial_idea_run.
    destruct (ThoughtProcessor.process_brain_dump _ _) as [[s|e] [w1 p1]];
      exists []; simpl; now rewrite app_nil_r.
  - rewrite refine_content_run.
    destruct (ThoughtProcessor.refine_narrative _ _) as [[s|e] [w1 p1]];
      exists []; simpl; now rewrite app_nil_r.
  - rewrite finalize_to_blog_run.
    destruct (Orchestrator.current_state o) as [sections|].
    + rewrite convert_draft_run.
      destruct (send_message _ w) as [[response|f] w1].
      * destruct (Draft2Blog._extract_styled_content response) as [styled|e].
        -- destruct (now_isoformat w1) as [ts w2]. simpl.
           eexists. reflexivity.
        -- exists []. simpl. now rewrite app_nil_r.
      * exists []. simpl. now rewrite app_nil_r.
    + exists []. simpl. now rewrite app_nil_r.
Qed.

(** C6.  Session Memory ([BlogMemory]) is append-only.  After [n] recorded
    operations on an empty memory, [get_history] has length [n] and holds
    the recorded pairs in call order, most recent last; one more
    [add_draft] on any memory keeps every earlier entry in place and adds
    exactly the new one at the end; the document [export_memory] hands to
    the JSON writer has the single top-level key [drafts], bound to an array
    of length [n] whose [i]-th item is the object with exactly the keys
    [timestamp], [original_draft] and [styled_draft], in this order, bound to
    the strings of the [i]-th entry, and exporting leaves the log as it is;
    and no request served by the orchestrator removes, reorders or alters a
    recorded entry. *)
Theorem blog_memory_append_only (pairs : list (str * str)) (w : World) :
  let '(r, (_, m)) := add_drafts pairs (w, BlogMemory.empty) in
  r = Ok tt /\
  List.length (BlogMemory.get_history m) = List.length pairs /\
  map recorded_pair (BlogMemory.get_history m) = pairs /\
  (forall original styled w1,
      exists ts w2,
        BlogMemory.add_draft original styled (w1, m)
        = (Ok tt, (w2, BlogMemory.Build
                         (BlogMemory.get_history m ++
                          [{| timestamp := ts; original_draft := original;
                              styled_draft := styled |}])))) /\
  (exists items,
      BlogMemory.memory_document m = JObject [(lit "drafts", JArray items)] /\
      List.length items = List.length pairs /\
      items = map (fun d =>
                     JObject [(lit "timestamp", JString (timestamp d));
                              (lit "original_draft", JString (original_draft d));
                              (lit "styled_draft", JString (styled_draft d))])
                  (BlogMemory.get_history m) /\
      forall filename w1,
        snd (BlogMemory.export_memory filename (w1, m))
        = (snd (dump_json filename (JObject [(lit "drafts", JArray items)]) w1),
           m)) /\
  (forall q w1 o,
      exists added,
        Draft2Blog.get_conversion_history
          (Orchestrator.blog_converter (snd (snd (Relay.serve q (w1, o)))))
        = Draft2Blog.get_conversion_history (Orchestrator.blog_converter o)
          ++ added).
Proof.
  destruct (add_drafts_run pairs w BlogMemory.empty)
    as (w' & added & Hrun & Hadded).
  rewrite Hrun. simpl. unfold BlogMemory.get_history. simpl.
  assert (Hlen : List.length added = List.length pairs)
    by (rewrite <- Hadded; now rewrite length_map).
  repeat split.
  - exact Hlen.
  - exact Hadded.
  - intros original styled w1. rewrite add_draft_run.
    destruct (now_isoformat w1) as [ts w2]. now exists ts, w2.
  - exists (map BlogMemory.draft_json added). repeat split.
    + now rewrite length_map.
    + intros filename w1. rewrite export_memory_run.
      unfold BlogMemory.memory_document. simpl.
      now destruct (dump_json _ _ w1) as [[[]|f] w2].
  - apply serve_extends_history.
Qed.
End SessionMemory.

(** ** Overwriting the narrative *)

Section Overwrite.
Context {E : Env}.

Lemma process_initial_idea_ok (idea : str) (w w' : World)
      (o o' : Orchestrator.t) (sections : ParsedSections) :
  Orchestrator.process_initial_idea idea (w, o) = (Ok sections, (w', o')) ->
  exists response w1,
    generate_content (ThoughtProcessor._get_processing_prompt idea) w
      = (inl response, w1) /\
    sections = ThoughtProcessor._parse_response response /\
    reflects_only o' response.
Proof.
  rewrite process_initial_idea_run, process_brain_dump_run.
  destruct (generate_content _ w) as [[response|f] w1]; [|discriminate].
  destruct (now_isoformat w1) as [ts w2]. simpl.
  intros H. inversion H; subst.
  exists response, w1. repeat split.
Qed.

(** C7.  Processing overwrites.  After a successful [process(A)] followed by
    a successful [process(B)], the orchestrator's [current_state] and the
    processor's current narrative and growth points are exactly the sections
    parsed from the response the remote model gave to [B]'s prompt: they are
    a function of that response alone, whatever [A] and its response were. *)
Theorem process_overwrites (A B : str) (w0 w1 w2 : World)
        (o0 o1 o2 : Orchestrator.t) (sectionsA sectionsB : ParsedSections) :
  Orchestrator.process_initial_idea A (w0, o0) = (Ok sectionsA, (w1, o1)) ->
  Orchestrator.process_initial_idea B (w1, o1) = (Ok sectionsB, (w2, o2)) ->
  exists responseB w',
    generate_content (ThoughtProcessor._get_processing_prompt B) w1
      = (inl responseB, w') /\
    sectionsB = ThoughtProcessor._parse_response responseB /\
    reflects_only o2 responseB.
Proof.
  intros _ HB. exact (process_initial_idea_ok _ _ _ HB).
Qed.
End Overwrite.

(** C7 on the stub: after [process("first idea")] and [process("second")],
    everything retained reads B1/B2/B3. *)
Lemma process_overwrites_witness :
  let E := Stub.env two_replies Stub.down in
  let st1 := snd (@Orchestrator.process_initial_idea E (lit "first idea")
                    (Stub.fresh, Orchestrator.init)) in
  let o1 := snd st1 in
  let o2 := snd (snd (@Orchestrator.process_initial_idea E (lit "second") st1)) in
  Orchestrator.current_state o1
    = Some {| connected_narrative := lit "A1"; growth_points := lit "A2";
              ai_contributions := lit "A3" |} /\
  Orchestrator.current_state o2
    = Some {| connected_narrative := lit "B1"; growth_points := lit "B2";
              ai_contributions := lit "B3" |} /\
  ThoughtProcessor.current_narrative (Orchestrator.thought_processor o2) = lit "B1" /\
  ThoughtProcessor.current_growth_points (Orchestrator.thought_processor o2) = lit "B2".
Proof.
  intros E st1 o1 o2.
  split; [vm_compute; reflexivity|].
  destruct (@process_overwrites E (lit "first idea") (lit "second")
              Stub.fresh (fst st1)
              (fst (snd (@Orchestrator.process_initial_idea E (lit "second") st1)))
              Orchestrator.init o1 o2
              {| connected_narrative := lit "A1"; growth_points := lit "A2";
                 ai_contributions := lit "A3" |}
              {| connected_narrative := lit "B1"; growth_points := lit "B2";
                 ai_contributions := lit "B3" |})
    as (responseB & w' & Hgen & _ & Hstate & Hnarr & Hgrow).
  - vm_compute. reflexivity.
  - vm_compute. reflexivity.
  - assert (HrB : responseB = lit "<connected_narrative>B1</connected_narrative><growth_points>B2</growth_points><ai_contributions>B3</ai_contributions>").
    { vm_compute in Hgen. now inversion Hgen. }
    subst responseB.
    rewrite Hstate, Hnarr, Hgrow. vm_compute. repeat split.
Defined.

(** ** Failed operations *)

Section Atomicity.
Context {E : Env}.

Lemma same_retained_state_refl (o : Orchestrator.t) : same_retained_state o o.
Proof. repeat split. Qed.

Lemma refine_narrative_raise (request : str) (w w' : World)
      (p p' : ThoughtProcessor.t) (e : exn failure) :
  ThoughtProcessor.refine_narrative request (w, p) = (Raise e, (w', p')) ->
  p' = p.
Proof.
  rewrite refine_narrative_run.
  destruct (generate_content _ w) as [[response|f] w1].
  - destruct (now_isoformat w1); discriminate.
  - intros H. now inversion H.
Qed.

Lemma convert_draft_raise (draft : str) (w w' : World)
      (c c' : Draft2Blog.t) (e : exn failure) :
  Draft2Blog.convert_draft draft (w, c) = (Raise e, (w', c')) ->
  c' = c.
Proof.
  rewrite convert_draft_run.
  destruct (send_message _ w) as [[response|f] w1].
  - destruct (Draft2Blog._extract_styled_content response).
    + destruct (now_isoformat w1); discriminate.
    + intros H. now inversion H.
  - intros H. now inversion H.
Qed.

(** An operation that raises leaves the retained state alone.  Whenever
    [refine_content], [convert_draft] or [finalize_to_blog] raises, be it
    from the remote call or from the extraction, the stored narrative and
    growth points, the orchestrator's [current_state] and the session
    memories are exactly what they were before the call: the whole
    orchestrator object is unchanged.  (The chat session's own conversation
    context belongs to the world and is not part of this statement.) *)
Theorem failed_operation_keeps_state (w w' : World) (e : exn failure) :
  (forall request o o',
      Orchestrator.refine_content request (w, o) = (Raise e, (w', o')) ->
      same_retained_state o o' /\ o' = o) /\
  (forall draft c c',
      Draft2Blog.convert_draft draft (w, c) = (Raise e, (w', c')) ->
      Draft2Blog.memory c' = Draft2Blog.memory c /\ c' = c) /\
  (forall o o',
      Orchestrator.finalize_to_blog (w, o) = (Raise e, (w', o')) ->
      same_retained_state o o' /\ o' = o).
Proof.
  assert (Hsame : forall o o', o' = o -> same_retained_state o o' /\ o' = o).
  { intros o o' ->. split; [apply same_retained_state_refl | reflexivity]. }
  split; [|split].
  - intros request o o'. rewrite refine_content_run.
    destruct (ThoughtProcessor.refine_narrative _ _) as [[s|e'] [w1 p1]] eqn:Hr;
      [discriminate|].
    intros H. inversion H; subst.
    apply refine_narrative_raise in Hr. subst p1.
    apply Hsame. now destruct o.
  - intros draft c c' H. apply convert_draft_raise in H. now subst.
  - intros o o'. rewrite finalize_to_blog_run.
    destruct (Orchestrator.current_state o) as [sections|] eqn:Hs.
    + destruct (Draft2Blog.convert_draft _ _) as [[s|e'] [w1 c1]] eqn:Hc;
        [discriminate|].
      intros H. inversion H; subst.
      apply convert_draft_raise in Hc. subst c1.
      apply Hsame. rewrite <- Hs. now destruct o.
    + intros H. inversion H; subst. now apply Hsame.
Qed.
End Atomicity.

(** On the stub: a refinement against a remote model that is down, and a
    finalization whose reply has no [styled_draft] tags, both raise and both
    leave the orchestrator as it was. *)
Lemma failed_operation_keeps_state_witness :
  let E := Stub.env Stub.down (Stub.always tagless_reply) in
  let refined := @Orchestrator.refine_content E (lit "shorter") (Stub.fresh, seasoned) in
  let finalized := @Orchestrator.finalize_to_blog E (Stub.fresh, seasoned) in
  (fst refined = Raise (ExternalError tt) /\ snd (snd refined) = seasoned) /\
  (fst finalized = Raise missing_styled_draft /\ snd (snd finalized) = seasoned).
Proof.
  intros E refined finalized. split; (split; [vm_compute; reflexivity|]).
  - apply (proj1 (@failed_operation_keeps_state E Stub.fresh
                    (fst (snd refined)) (ExternalError tt))
             (lit "shorter") seasoned (snd (snd refined))).
    vm_compute. reflexivity.
  - apply (proj2 (proj2 (@failed_operation_keeps_state E Stub.fresh
                    (fst (snd finalized)) missing_styled_draft))
             seasoned (snd (snd finalized))).
    vm_compute. reflexivity.
Defined.

(** C8.  The claim: a refine whose extraction fails leaves the stored
    narrative, growth points, orchestrator state and session memory as they
    were, state being overwritten and memory recorded only after a
    successful extraction.  The code on an orchestrator that holds the
    narrative N, at a refinement answered by a reply with none of the three
    tag pairs: [refine_content] returns normally; the raw reply has been
    recorded as a second interaction, and the narrative, the growth points
    and [current_state] have been overwritten by slices of the reply cut at
    the indices [-1 + len(start_tag)] and [-1]. *)
Theorem refine_content_tagless_reply :
  absent tagless_reply (lit "<connected_narrative>") /\
  absent tagless_reply (lit "<growth_points>") /\
  absent tagless_reply (lit "<ai_contributions>") /\
  ThoughtProcessor.current_narrative (Orchestrator.thought_processor seasoned)
    = lit "N" /\
  List.length (interactions_of seasoned) = 1%nat /\
  let E := Stub.env (Stub.always tagless_reply) Stub.down in
  let sections :=
    {| connected_narrative := lit "hat request, sorry about it";
       growth_points := lit "with that request, sorry about it";
       ai_contributions := lit "h that request, sorry about it" |} in
  let '(r, (_, o)) :=
    @Orchestrator.refine_content E (lit "shorter") (Stub.fresh, seasoned) in
  r = Ok sections /\
  Orchestrator.current_state o = Some sections /\
  ThoughtProcessor.current_narrative (Orchestrator.thought_processor o)
    = lit "hat request, sorry about it" /\
  ThoughtProcessor.current_growth_points (Orchestrator.thought_processor o)
    = lit "with that request, sorry about it" /\
  interactions_of o
    = interactions_of seasoned ++
      [MemoryObject.format_interaction (lit "0") 2 tagless_reply].
Proof.
  repeat (split; [apply find_absent; vm_compute; reflexivity|]).
  split; [reflexivity|]. split; [reflexivity|].
  vm_compute. repeat split.
Qed.

(** ** End to end *)

Section EndToEnd.
Context {E : Env}.

(** C9.  With a remote model that answers every prompt with the three
    sections N, G, C, and a style model that answers every draft with
    [<styled_draft>S</styled_draft>], [process_initial_idea("hello")]
    returns exactly the sections N, G, C and a subsequent
    [finalize_to_blog()] returns S. *)
Theorem end_to_end (w : World) (o : Orchestrator.t) :
  (forall prompt w0, fst (generate_content prompt w0) = inl tagged_reply) ->
  (forall draft w0, fst (send_message draft w0) = inl styled_reply) ->
  let processed := Orchestrator.process_initial_idea (lit "hello") (w, o) in
  fst processed = Ok {| connected_narrative := lit "N";
                        growth_points := lit "G";
                        ai_contributions := lit "C" |} /\
  fst (Orchestrator.finalize_to_blog (snd processed)) = Ok (lit "S").
Proof.
  intros Hmodel Hchat processed. subst processed.
  rewrite process_initial_idea_run, process_brain_dump_run.
  pose proof (Hmodel (ThoughtProcessor._get_processing_prompt (lit "hello")) w)
    as Hg.
  destruct (generate_content _ w) as [r w1]. simpl in Hg. subst r.
  destruct (now_isoformat w1) as [ts w2]. simpl.
  split; [reflexivity|].
  rewrite finalize_to_blog_run. simpl.
  rewrite convert_draft_run.
  pose proof (Hchat (Draft2Blog.wrap_draft (lit "N")) w2) as Hc.
  destruct (send_message _ w2) as [r w3]. simpl in Hc. subst r.
  change (Draft2Blog._extract_styled_content styled_reply)
    with (@Ok (exn failure) str (lit "S")).
  destruct (now_isoformat w3) as [ts' w4]. reflexivity.
Qed.
End EndToEnd.

(** C9 on the stub. *)
Lemma end_to_end_witness :
  let E := Stub.env (Stub.always tagged_reply) (Stub.always styled_reply) in
  let processed :=
    @Orchestrator.process_initial_idea E (lit "hello")
      (Stub.fresh, Orchestrator.init) in
  fst processed = Ok {| connected_narrative := lit "N";
                        growth_points := lit "G";
                        ai_contributions := lit "C" |} /\
  fst (@Orchestrator.finalize_to_blog E (snd processed)) = Ok (lit "S").
Proof.
  intros E.
  apply (@end_to_end E Stub.fresh Orchestrator.init); reflexivity.
Defined.

(** ** What the history keeps of the caller's draft *)

Section RecordedDraft.
Context {E : Env}.

Lemma convert_draft_ok (draft styled : str) (w w' : World)
      (c c' : Draft2Blog.t) :
  Draft2Blog.convert_draft draft (w, c) = (Ok styled, (w', c')) ->
  exists ts,
    Draft2Blog.get_conversion_history c'
    = Draft2Blog.get_conversion_history c ++
      [{| timestamp := ts;
          original_draft := Draft2Blog.wrap_draft draft;
          styled_draft := styled |}].
Proof.
  rewrite convert_draft_run.
  destruct (send_message _ w) as [[response|f] w1]; [|discriminate].
  destruct (Draft2Blog._extract_styled_content response) as [s|e];
    [|discriminate].
  destruct (now_isoformat w1) as [ts w2].
  intros H. inversion H; subst. now exists ts.
Qed.

Lemma wrapped_is_longer (draft : str) :
  draft_open ++ draft ++ draft_close <> draft.
Proof.
  intros H. apply (f_equal (@List.length char)) in H.
  rewrite !length_app in H. simpl in H. lia.
Qed.

(** C10.  After a successful [convert_draft], the new history entry (and
    its item in the exported document) has as [original_draft] the wrapped
    string [<draft> + draft + </draft>] whenever the stripped draft does not
    start with [<draft>], and not the caller's raw input; the raw input is
    recorded verbatim exactly when it arrived wrapped. *)
Theorem convert_draft_records_wrapped (draft styled : str) (w w' : World)
        (c c' : Draft2Blog.t) :
  Draft2Blog.convert_draft draft (w, c) = (Ok styled, (w', c')) ->
  exists entry,
    Draft2Blog.get_conversion_history c'
      = Draft2Blog.get_conversion_history c ++ [entry] /\
    BlogMemory.memory_document (Draft2Blog.memory c')
      = JObject [(lit "drafts",
                  JArray (map BlogMemory.draft_json
                            (Draft2Blog.get_conversion_history c)
                          ++ [BlogMemory.draft_json entry]))] /\
    styled_draft entry = styled /\
    (startswith (strip draft) draft_open = false ->
     original_draft entry = draft_open ++ draft ++ draft_close /\
     original_draft entry <> draft) /\
    (startswith (strip draft) draft_open = true ->
     original_draft entry = draft) /\
    (original_draft entry = draft <->
     startswith (strip draft) draft_open = true).
Proof.
  intros H. destruct (convert_draft_ok _ _ _ H) as [ts Hh].
  assert (Hyes : startswith (strip draft) draft_open = true ->
                 Draft2Blog.wrap_draft draft = draft).
  { intros Hs. unfold Draft2Blog.wrap_draft. fold draft_open. now rewrite Hs. }
  eexists; split; [exact Hh|].
  split.
  { unfold Draft2Blog.get_conversion_history, BlogMemory.get_history in Hh.
    unfold BlogMemory.memory_document. rewrite Hh, map_app. reflexivity. }
  cbn [original_draft styled_draft].
  split; [reflexivity|]. split; [|split; [exact Hyes|split]].
  - intros Hs. rewrite (wrap_draft_unwrapped _ Hs).
    split; [reflexivity | apply wrapped_is_longer].
  - destruct (startswith (strip draft) draft_open) eqn:Hs; [reflexivity|].
    rewrite (wrap_draft_unwrapped _ Hs). intros Hw.
    now apply wrapped_is_longer in Hw.
  - exact Hyes.
Qed.
End RecordedDraft.

(** C10 on the stub: converting the bare text [hi] records
    [<draft>hi</draft>]. *)
Lemma convert_draft_records_wrapped_witness :
  let E := Stub.env Stub.down (Stub.always styled_reply) in
  let c' := snd (snd (@Draft2Blog.convert_draft E (lit "hi")
                        (Stub.fresh, Draft2Blog.init))) in
  exists entry,
    Draft2Blog.get_conversion_history c' = [entry] /\
    original_draft entry = lit "<draft>hi</draft>".
Proof.
  intros E c'.
  destruct (@convert_draft_records_wrapped E (lit "hi") (lit "S") Stub.fresh
              (fst (snd (@Draft2Blog.convert_draft E (lit "hi")
                           (Stub.fresh, Draft2Blog.init))))
              Draft2Blog.init c')
    as (entry & Hh & _ & _ & Hw & _).
  - vm_compute. reflexivity.
  - exists entry. split; [exact Hh|]. now apply Hw.
Defined.

(** * Further properties *)

(** ** White space at the ends *)

Lemma lstrip_cases (s : str) :
  lstrip s = [] \/ exists c rest, lstrip s = c :: rest /\ isspace c = false.
Proof.
  induction s as [|a s IH]; simpl; [now left|].
  destruct (isspace a) eqn:Ha; [exact IH|].
  right. now exists a, s.
Qed.

Lemma lstrip_fixed (c : char) (rest : str) :
  isspace c = false -> lstrip (c :: rest) = c :: rest.
Proof. intros H. simpl. now rewrite H. Qed.

Lemma lstrip_idempotent (s : str) : lstrip (lstrip s) = lstrip s.
Proof.
  destruct (lstrip_cases s) as [->|(c & rest & -> & Hc)]; [reflexivity|].
  now apply lstrip_fixed.
Qed.

Lemma rstrip_idempotent (s : str) : rstrip (rstrip s) = rstrip s.
Proof.
  unfold rstrip. now rewrite rev_involutive, lstrip_idempotent.
Qed.

Lemma lstrip_strip (s : str) : lstrip (strip s) = strip s.
Proof.
  unfold strip.
  destruct (lstrip_cases s) as [->|(c & rest & -> & Hc)]; [reflexivity|].
  pose proof (rstrip_app_nonspace [] rest c Hc) as Hr. simpl in Hr.
  rewrite Hr. now apply lstrip_fixed.
Qed.

Lemma strip_idempotent (s : str) : strip (strip s) = strip s.
Proof.
  unfold strip at 1. rewrite lstrip_strip.
  unfold strip. apply rstrip_idempotent.
Qed.

Lemma strip_stripped (s : str) : stripped (strip s).
Proof.
  split; intros c rest H.
  - pose proof (lstrip_strip s) as Hl. rewrite H in Hl.
    simpl in Hl. destruct (isspace c) eqn:Hc; [|reflexivity].
    exfalso.
    assert (Hlen : (List.length (lstrip rest) <= List.length rest)%nat).
    { clear. induction rest as [|a r IH]; simpl; [lia|].
      destruct (isspace a); simpl; lia. }
    rewrite Hl in Hlen. simpl in Hlen. lia.
  - unfold strip, rstrip in H.
    apply (f_equal (@rev char)) in H.
    rewrite rev_involutive, rev_app_distr in H. simpl in H.
    destruct (lstrip_cases (rev (lstrip s))) as [He|(c' & r' & He & Hc)];
      rewrite He in H; [discriminate|].
    inversion H; subst. exact Hc.
Qed.

(** X1.  Whatever the response, what either extractor returns has no white
    space at its ends and is left alone by a second [strip]: the styled
    content of [_extract_styled_content] when it returns, and each of the
    three sections of [_parse_response]. *)
Theorem extracted_text_is_stripped {E : Env} (response : str) :
  match Draft2Blog._extract_styled_content response with
  | Ok styled => stripped styled /\ strip styled = styled
  | Raise _ => True
  end /\
  let sections := ThoughtProcessor._parse_response response in
  (stripped (connected_narrative sections) /\
   strip (connected_narrative sections) = connected_narrative sections) /\
  (stripped (growth_points sections) /\
   strip (growth_points sections) = growth_points sections) /\
  (stripped (ai_contributions sections) /\
   strip (ai_contributions sections) = ai_contributions sections).
Proof.
  split.
  - unfold Draft2Blog._extract_styled_content.
    destruct (_ || _)%bool; [exact I|].
    split; [apply strip_stripped | apply strip_idempotent].
  - unfold ThoughtProcessor._parse_response,
      ThoughtProcessor.extract_tag_content; cbn [connected_narrative
      growth_points ai_contributions].
    repeat split; try apply strip_stripped; apply strip_idempotent.
Qed.

(** ** Slices at the edges *)

Lemma first_occurrence_fits (s sub : str) (i : nat) :
  first_occurrence s sub i -> (i + List.length sub <= List.length s)%nat.
Proof.
  intros [H _]. apply occurs_at_split in H as (a & b & -> & <-).
  rewrite !length_app. lia.
Qed.

(** A slice whose stop is not after its start is empty. *)
Lemma slice_backwards (s : str) (a b : Z) :
  (0 <= b <= a)%Z -> (a <= len s)%Z -> slice s a b = [].
Proof.
  intros Hb Ha. unfold slice.
  rewrite !adjust_id by lia.
  replace (Z.to_nat (b - a)) with 0%nat by lia. reflexivity.
Qed.

Lemma adjust_last (n : Z) : (0 <= n)%Z -> adjust (-1) n = Z.max 0 (n - 1).
Proof.
  intros Hn. unfold adjust.
  change (-1 <? 0)%Z with true. cbv iota.
  destruct (Z.ltb_spec (-1 + n) 0); lia.
Qed.

(** [s[len(a):-1]] is what follows [a], less the last character. *)
Lemma slice_drop_last (a body : str) (c : char) :
  slice (a ++ body ++ [c]) (len a) (-1) = body.
Proof.
  assert (Hn : len (a ++ body ++ [c]) = (len a + len body + 1)%Z)
    by (rewrite !len_app; unfold len; simpl; lia).
  assert (H0 : (0 <= len a)%Z /\ (0 <= len body)%Z) by (unfold len; lia).
  unfold slice. cbv zeta. rewrite Hn.
  rewrite (@adjust_id (len a)) by lia. rewrite adjust_last by lia.
  replace (Z.to_nat (Z.max 0 (len a + len body + 1 - 1) - len a))
    with (List.length body) by (unfold len; lia).
  unfold len. rewrite Nat2Z.id, skipn_app, skipn_all, Nat.sub_diag. simpl.
  rewrite firstn_app, firstn_all, Nat.sub_diag. simpl. apply app_nil_r.
Qed.

(** [s[len(s):-1]] is empty. *)
Lemma slice_nothing_left (s : str) : slice s (len s) (-1) = [].
Proof.
  assert (H0 : (0 <= len s)%Z) by (unfold len; lia).
  unfold slice. cbv zeta.
  rewrite (@adjust_id (len s)) by lia. rewrite adjust_last by lia.
  replace (Z.to_nat (Z.max 0 (len s - 1) - len s)) with 0%nat by lia.
  reflexivity.
Qed.

(** ** Draft2Blog._extract_styled_content at the edges *)

Section StyledEdges.
Context {E : Env}.

Lemma extract_styled_content_cases (s : str) :
  (Draft2Blog._extract_styled_content s = Raise missing_styled_draft /\
   (absent s styled_open \/ absent s styled_close)) \/
  (exists i j,
      first_occurrence s styled_open i /\ first_occurrence s styled_close j /\
      Draft2Blog._extract_styled_content s =
      Ok (strip (slice s (Z.of_nat i + len styled_open) (Z.of_nat j)))).
Proof.
  destruct (find_from_cases s styled_open 0) as [[_ Ho]|(i & _ & Hi)].
  - left. split; [|now left]. apply extract_styled_content_missing. now left.
  - destruct (find_from_cases s styled_close 0) as [[_ Hc]|(j & _ & Hj)].
    + left. split; [|now right]. apply extract_styled_content_missing. now right.
    + right. exists i, j. repeat split; try apply Hi; try apply Hj.
      now apply extract_styled_content_found.
Qed.

(** X2.  [_extract_styled_content] raises exactly when one of the two tags
    is absent, and then it is the "Could not find styled_draft tags"
    [ValueError]; the order of the tags is not checked: when both occur but
    the first close tag starts before the first open tag has ended, the call
    returns the empty string. *)
Theorem extract_styled_content_edges (s : str) :
  (Draft2Blog._extract_styled_content s = Raise missing_styled_draft <->
   absent s styled_open \/ absent s styled_close) /\
  (forall e, Draft2Blog._extract_styled_content s = Raise e ->
             e = missing_styled_draft) /\
  (forall i j,
      first_occurrence s styled_open i ->
      first_occurrence s styled_close j ->
      (j <= i + List.length styled_open)%nat ->
      Draft2Blog._extract_styled_content s = Ok []).
Proof.
  split; [|split].
  - split; [|apply extract_styled_content_missing].
    intros H.
    destruct (extract_styled_content_cases s) as [[_ Ha]|(i & j & _ & _ & Hok)];
      [exact Ha|].
    rewrite Hok in H. discriminate.
  - intros e H.
    destruct (extract_styled_content_cases s) as [[Hr _]|(i & j & _ & _ & Hok)].
    + rewrite Hr in H. now inversion H.
    + rewrite Hok in H. discriminate.
  - intros i j Hi Hj Hle.
    rewrite (extract_styled_content_found Hi Hj).
    pose proof (first_occurrence_fits Hi) as Hfit.
    rewrite slice_backwards; [reflexivity| |]; unfold len in *; lia.
Qed.
End StyledEdges.

(** X2 on a reply whose tags come in the wrong order, and on one without a
    close tag. *)
Lemma extract_styled_content_edges_witness :
  @Draft2Blog._extract_styled_content (Stub.env Stub.down Stub.down)
    (lit "</styled_draft>A post.<styled_draft>") = Ok [] /\
  absent (lit "<styled_draft>A post.") styled_close.
Proof.
  pose proof (@extract_styled_content_edges (Stub.env Stub.down Stub.down)) as H.
  split.
  - apply (proj2 (proj2 (H (lit "</styled_draft>A post.<styled_draft>"))) 22%nat 0%nat).
    + apply find_first. vm_compute. reflexivity.
    + apply find_first. vm_compute. reflexivity.
    + vm_compute. lia.
  - destruct (proj1 (proj1 (H (lit "<styled_draft>A post."))) eq_refl) as [Ha|Ha].
    + exfalso. apply find_absent in Ha. vm_compute in Ha. discriminate.
    + exact Ha.
Defined.

(** ** ThoughtProcessor.extract_tag_content, tag by tag *)

Lemma len_open_tag (tag : str) : len (open_tag tag) = (len tag + 2)%Z.
Proof.
  unfold open_tag, len. rewrite !length_app.
  change (List.length (lit "<")) with 1%nat.
  change (List.length (lit ">")) with 1%nat. lia.
Qed.

Lemma extract_tag_content_found (s tag : str) (i j : nat) :
  first_occurrence s (open_tag tag) i ->
  first_occurrence s (close_tag tag) j ->
  ThoughtProcessor.extract_tag_content s tag =
  strip (slice s (Z.of_nat i + len (open_tag tag)) (Z.of_nat j)).
Proof.
  intros Hi Hj. apply find_first in Hi, Hj.
  unfold ThoughtProcessor.extract_tag_content.
  fold (open_tag tag) (close_tag tag). cbv zeta.
  now rewrite Hi, Hj.
Qed.

Lemma extract_tag_content_between (tag pre X post : str) :
  let s := pre ++ open_tag tag ++ X ++ close_tag tag ++ post in
  first_occurrence s (open_tag tag) (List.length pre) ->
  first_occurrence s (close_tag tag)
    (List.length pre + List.length (open_tag tag) + List.length X) ->
  ThoughtProcessor.extract_tag_content s tag = strip X.
Proof.
  intros s Ho Hc.
  rewrite (extract_tag_content_found Ho Hc). f_equal. subst s.
  replace (pre ++ open_tag tag ++ X ++ close_tag tag ++ post)
    with ((pre ++ open_tag tag) ++ X ++ (close_tag tag ++ post))
    by now rewrite <- !app_assoc.
  replace (Z.of_nat (List.length pre) + len (open_tag tag))%Z
    with (len (pre ++ open_tag tag)) by (rewrite len_app; reflexivity).
  replace (Z.of_nat (List.length pre + List.length (open_tag tag) + List.length X))
    with (len (pre ++ open_tag tag) + len X)%Z
    by (rewrite len_app; unfold len; lia).
  apply slice_middle.
Qed.

(** X3.  [extract_tag_content] with the close tag missing does not fail: if
    the open tag is there, it returns what follows the open tag, stripped,
    after dropping the last character of the response; if nothing follows
    the open tag it returns the empty string. *)
Theorem extract_tag_content_unclosed (tag pre : str) :
  (forall body c,
      let s := pre ++ open_tag tag ++ body ++ [c] in
      first_occurrence s (open_tag tag) (List.length pre) ->
      absent s (close_tag tag) ->
      ThoughtProcessor.extract_tag_content s tag = strip body) /\
  (let s := pre ++ open_tag tag in
   first_occurrence s (open_tag tag) (List.length pre) ->
   absent s (close_tag tag) ->
   ThoughtProcessor.extract_tag_content s tag = []).
Proof.
  split.
  - intros body c s Ho Hc.
    apply find_first in Ho. apply find_absent in Hc.
    unfold ThoughtProcessor.extract_tag_content.
    fold (open_tag tag) (close_tag tag). cbv zeta.
    rewrite Ho, Hc. f_equal. subst s.
    replace (pre ++ open_tag tag ++ body ++ [c])
      with ((pre ++ open_tag tag) ++ body ++ [c]) by now rewrite <- app_assoc.
    replace (Z.of_nat (List.length pre) + len (open_tag tag))%Z
      with (len (pre ++ open_tag tag)) by (rewrite len_app; reflexivity).
    apply slice_drop_last.
  - intros s Ho Hc.
    apply find_first in Ho. apply find_absent in Hc.
    unfold ThoughtProcessor.extract_tag_content.
    fold (open_tag tag) (close_tag tag). cbv zeta.
    rewrite Ho, Hc. subst s.
    replace (Z.of_nat (List.length pre) + len (open_tag tag))%Z
      with (len (pre ++ open_tag tag)) by (rewrite len_app; reflexivity).
    now rewrite slice_nothing_left.
Qed.

(** X3 on a reply that opens the growth points and never closes them. *)
Lemma extract_tag_content_unclosed_witness :
  ThoughtProcessor.extract_tag_content
    (lit "Sure. <growth_points> more markets!") (lit "growth_points")
    = lit "more markets" /\
  ThoughtProcessor.extract_tag_content
    (lit "Sure. <growth_points>") (lit "growth_points") = [].
Proof.
  split.
  - apply (proj1 (extract_tag_content_unclosed (lit "growth_points") (lit "Sure. "))
             (lit " more markets") 33%N).
    + apply find_first. vm_compute. reflexivity.
    + apply find_absent. vm_compute. reflexivity.
  - apply (proj2 (extract_tag_content_unclosed (lit "growth_points") (lit "Sure. "))).
    + apply find_first. vm_compute. reflexivity.
    + apply find_absent. vm_compute. reflexivity.
Defined.

(** X4.  [extract_tag_content] with the open tag missing does not fail
    either: the start falls at index [len(tag) + 1] of the response.  If the
    close tag is there, the result is the text before it less its first
    [len(tag) + 1] characters; if both tags are missing, it is the response
    less its first [len(tag) + 1] characters and its last one.  Stripped in
    both cases. *)
Theorem extract_tag_content_unopened (tag a body : str) :
  len a = (len tag + 1)%Z ->
  (forall post,
      let s := a ++ body ++ close_tag tag ++ post in
      absent s (open_tag tag) ->
      first_occurrence s (close_tag tag) (List.length a + List.length body) ->
      ThoughtProcessor.extract_tag_content s tag = strip body) /\
  (forall c,
      let s := a ++ body ++ [c] in
      absent s (open_tag tag) ->
      absent s (close_tag tag) ->
      ThoughtProcessor.extract_tag_content s tag = strip body).
Proof.
  intros Ha.
  assert (Hstart : (-1 + len (open_tag tag))%Z = len a)
    by (rewrite len_open_tag; lia).
  split.
  - intros post s Ho Hc.
    apply find_absent in Ho. apply find_first in Hc.
    unfold ThoughtProcessor.extract_tag_content.
    fold (open_tag tag) (close_tag tag). cbv zeta.
    rewrite Ho, Hc, Hstart. f_equal. subst s.
    replace (Z.of_nat (List.length a + List.length body))
      with (len a + len body)%Z by (unfold len; lia).
    apply slice_middle.
  - intros c s Ho Hc.
    apply find_absent in Ho, Hc.
    unfold ThoughtProcessor.extract_tag_content.
    fold (open_tag tag) (close_tag tag). cbv zeta.
    rewrite Ho, Hc, Hstart. f_equal. subst s.
    apply slice_drop_last.
Qed.

(** X4 on the tag-free reply: the narrative comes out as the reply less its
    first 20 characters and its full stop. *)
Lemma extract_tag_content_unopened_witness :
  ThoughtProcessor.extract_tag_content tagless_reply (lit "connected_narrative")
    = lit "hat request, sorry about it".
Proof.
  apply (proj2 (@extract_tag_content_unopened (lit "connected_narrative")
                  (lit "I cannot help with t")
                  (lit "hat request, sorry about it") eq_refl) 46%N).
  - apply find_absent. vm_compute. reflexivity.
  - apply find_absent. vm_compute. reflexivity.
Defined.

(** ** A well-formed narrative response *)

Lemma clear_of_nil (sub : str) : clear_of [] sub.
Proof. intros rest j Hj. simpl in Hj. lia. Qed.

Lemma clear_of_app (a b sub : str) :
  clear_of a sub -> clear_of b sub -> clear_of (a ++ b) sub.
Proof.
  intros Ha Hb rest j Hj. rewrite <- app_assoc.
  destruct (Nat.lt_ge_cases j (List.length a)) as [Hlt|Hge].
  - now apply Ha.
  - replace j with (List.length a + (j - List.length a))%nat by lia.
    rewrite occurs_at_app. apply Hb. rewrite length_app in Hj. lia.
Qed.

Lemma clear_of_plain (p sub : str) : plain p -> clear_of p (60%N :: sub).
Proof.
  intros Hp rest j Hj.
  destruct (occurs_at _ _ j) eqn:Ho; [|reflexivity].
  apply occurs_at_head in Ho.
  rewrite nth_error_app1 in Ho by exact Hj.
  apply nth_error_In in Ho. contradiction.
Qed.

Lemma first_occurrence_clear (a sub rest : str) :
  clear_of a sub -> first_occurrence (a ++ sub ++ rest) sub (List.length a).
Proof.
  intros Ha. split.
  - apply occurs_at_split. now exists a, rest.
  - intros j Hj. now apply Ha.
Qed.

Lemma extract_tag_content_clear (tag pre X post : str) :
  clear_of pre (open_tag tag) ->
  clear_of (pre ++ open_tag tag ++ X) (close_tag tag) ->
  ThoughtProcessor.extract_tag_content
    (pre ++ open_tag tag ++ X ++ close_tag tag ++ post) tag = strip X.
Proof.
  intros Ho Hc. apply extract_tag_content_between.
  - now apply first_occurrence_clear.
  - replace (pre ++ open_tag tag ++ X ++ close_tag tag ++ post)
      with ((pre ++ open_tag tag ++ X) ++ close_tag tag ++ post)
      by now rewrite <- !app_assoc.
    replace (List.length pre + List.length (open_tag tag) + List.length X)%nat
      with (List.length (pre ++ open_tag tag ++ X))
      by (rewrite !length_app; lia).
    now apply first_occurrence_clear.
Qed.

(** One tag does not start inside another: by running through the indices. *)
Ltac tag_clear :=
  let rest := fresh "rest" in
  let j := fresh "j" in
  let Hj := fresh "Hj" in
  intros rest j Hj;
  do 24 (try (destruct j as [|j]; [reflexivity|]));
  exfalso; vm_compute in Hj; lia.

Lemma narrative_open_clear_1 : clear_of narrative_open narrative_close.
Proof. tag_clear. Qed.
Lemma narrative_open_clear_2 : clear_of narrative_open growth_open.
Proof. tag_clear. Qed.
Lemma narrative_open_clear_3 : clear_of narrative_open growth_close.
Proof. tag_clear. Qed.
Lemma narrative_open_clear_4 : clear_of narrative_open contributions_open.
Proof. tag_clear. Qed.
Lemma narrative_open_clear_5 : clear_of narrative_open contributions_close.
Proof. tag_clear. Qed.
Lemma narrative_close_clear_2 : clear_of narrative_close growth_open.
Proof. tag_clear. Qed.
Lemma narrative_close_clear_3 : clear_of narrative_close growth_close.
Proof. tag_clear. Qed.
Lemma narrative_close_clear_4 : clear_of narrative_close contributions_open.
Proof. tag_clear. Qed.
Lemma narrative_close_clear_5 : clear_of narrative_close contributions_close.
Proof. tag_clear. Qed.
Lemma growth_open_clear_3 : clear_of growth_open growth_close.
Proof. tag_clear. Qed.
Lemma growth_open_clear_4 : clear_of growth_open contributions_open.
Proof. tag_clear. Qed.
Lemma growth_open_clear_5 : clear_of growth_open contributions_close.
Proof. tag_clear. Qed.
Lemma growth_close_clear_4 : clear_of growth_close contributions_open.
Proof. tag_clear. Qed.
Lemma growth_close_clear_5 : clear_of growth_close contributions_close.
Proof. tag_clear. Qed.
Lemma contributions_open_clear_5 : clear_of contributions_open contributions_close.
Proof. tag_clear. Qed.

(** Splits a text into its pieces and clears each piece of the tag sought. *)
Ltac clear_tags :=
  repeat first
    [ exact narrative_open_clear_1 | exact narrative_open_clear_2
    | exact narrative_open_clear_3 | exact narrative_open_clear_4
    | exact narrative_open_clear_5 | exact narrative_close_clear_2
    | exact narrative_close_clear_3 | exact narrative_close_clear_4
    | exact narrative_close_clear_5 | exact growth_open_clear_3
    | exact growth_open_clear_4 | exact growth_open_clear_5
    | exact growth_close_clear_4 | exact growth_close_clear_5
    | exact contributions_open_clear_5
    | (apply clear_of_plain; assumption)
    | apply clear_of_app ].

(** X5.  A response that carries the three sections in order, with text free
    of [<] before, between and inside them, parses into the three stripped
    contents, whatever follows the last close tag. *)
Theorem parse_response_well_formed (p0 N p1 G p2 C p3 : str) :
  plain p0 -> plain N -> plain p1 -> plain G -> plain p2 -> plain C ->
  ThoughtProcessor._parse_response
    (p0 ++ narrative_open ++ N ++ narrative_close ++
     p1 ++ growth_open ++ G ++ growth_close ++
     p2 ++ contributions_open ++ C ++ contributions_close ++ p3)
  = {| connected_narrative := strip N;
       growth_points := strip G;
       ai_contributions := strip C |}.
Proof.
  intros H0 HN H1 HG H2 HC.
  unfold ThoughtProcessor._parse_response. f_equal.
  - apply (@extract_tag_content_clear (lit "connected_narrative") p0 N);
      clear_tags.
  - replace (p0 ++ narrative_open ++ N ++ narrative_close ++
             p1 ++ growth_open ++ G ++ growth_close ++
             p2 ++ contributions_open ++ C ++ contributions_close ++ p3)
      with ((p0 ++ narrative_open ++ N ++ narrative_close ++ p1) ++
            growth_open ++ G ++ growth_close ++
            (p2 ++ contributions_open ++ C ++ contributions_close ++ p3))
      by (now rewrite <- !app_assoc).
    apply (@extract_tag_content_clear (lit "growth_points"));
      clear_tags.
  - replace (p0 ++ narrative_open ++ N ++ narrative_close ++
             p1 ++ growth_open ++ G ++ growth_close ++
             p2 ++ contributions_open ++ C ++ contributions_close ++ p3)
      with ((p0 ++ narrative_open ++ N ++ narrative_close ++
             p1 ++ growth_open ++ G ++ growth_close ++ p2) ++
            contributions_open ++ C ++ contributions_close ++ p3)
      by (now rewrite <- !app_assoc).
    apply (@extract_tag_content_clear (lit "ai_contributions"));
      clear_tags.
Qed.

(** X5 on a reply with prose around the sections and blank lines inside. *)
Lemma parse_response_well_formed_witness :
  ThoughtProcessor._parse_response
    (lit "Here is the analysis.
<connected_narrative>
Cities grow by trade.
</connected_narrative>
<growth_points> ports, rail </growth_points>
<ai_contributions>added examples</ai_contributions>
Anything else?")
  = {| connected_narrative := lit "Cities grow by trade.";
       growth_points := lit "ports, rail";
       ai_contributions := lit "added examples" |}.
Proof.
  assert (Hplain : forall p, forallb (fun c => negb (c =? 60)%N) p = true -> plain p).
  { intros p Hp Hin. rewrite forallb_forall in Hp.
    specialize (Hp _ Hin). discriminate. }
  apply (@parse_response_well_formed
           (lit "Here is the analysis.
")
           (lit "
Cities grow by trade.
")
           (lit "
")
           (lit " ports, rail ")
           (lit "
")
           (lit "added examples")
           (lit "
Anything else?")); apply Hplain; reflexivity.
Defined.

(** ** Runs of requests against the shared orchestrator *)

Section Traces.
Context {E : Env}.

(** What one request does to the orchestrator, by the kind of its outcome. *)
Lemma serve_step (q : Relay.request) (w : World) (o : Orchestrator.t) :
  match Relay.serve q (w, o) with
  | (Ok (Relay.Sections s), (_, o')) =>
      (exists block, interactions_of o' = interactions_of o ++ [block]) /\
      drafts_of o' = drafts_of o /\
      Orchestrator.current_state o' = Some s /\
      ThoughtProcessor.current_narrative (Orchestrator.thought_processor o')
        = connected_narrative s /\
      ThoughtProcessor.current_growth_points (Orchestrator.thought_processor o')
        = growth_points s
  | (Ok (Relay.BlogPost _), (_, o')) =>
      Orchestrator.thought_processor o' = Orchestrator.thought_processor o /\
      Orchestrator.current_state o' = Orchestrator.current_state o /\
      (exists d, drafts_of o' = drafts_of o ++ [d])
  | (Raise _, (_, o')) => o' = o
  end.
Proof.
  destruct q as [idea|refinement|]; unfold Relay.serve, bind, ret.
  - rewrite process_initial_idea_run, process_brain_dump_run.
    destruct (generate_content _ w) as [[response|f] w1].
    + destruct (now_isoformat w1) as [ts w2]. simpl.
      repeat split. now eexists.
    + simpl. now destruct o.
  - rewrite refine_content_run, refine_narrative_run.
    destruct (generate_content _ w) as [[response|f] w1].
    + destruct (now_isoformat w1) as [ts w2]. simpl.
      repeat split. now eexists.
    + simpl. now destruct o.
  - rewrite finalize_to_blog_run.
    destruct (Orchestrator.current_state o) as [sections|] eqn:Hs;
      [|reflexivity].
    rewrite convert_draft_run.
    destruct (send_message _ w) as [[response|f] w1].
    + destruct (Draft2Blog._extract_styled_content response) as [styled|e].
      * destruct (now_isoformat w1) as [ts w2]. simpl.
        repeat split. now eexists.
      * simpl. rewrite <- Hs. now destruct o.
    + simpl. rewrite <- Hs. now destruct o.
Qed.

Lemma serve_all_from (qs : list Relay.request) (w : World) (o : Orchestrator.t) :
  coherent o ->
  let '(rs, (_, o')) := Relay.serve_all qs (w, o) in
  List.length rs = List.length qs /\
  coherent o' /\
  List.length (interactions_of o')
    = (List.length (interactions_of o) + count_sections rs)%nat /\
  List.length (drafts_of o')
    = (List.length (drafts_of o) + count_posts rs)%nat /\
  (Orchestrator.current_state o' = None <->
   Orchestrator.current_state o = None /\ count_sections rs = 0%nat).
Proof.
  revert w o; induction qs as [|q qs IH]; intros w o Hco.
  - simpl. split; [reflexivity|]. split; [exact Hco|].
    split; [lia|]. split; [lia|]. tauto.
  - cbn [Relay.serve_all].
    pose proof (serve_step q w o) as Hstep.
    destruct (Relay.serve q (w, o)) as [r [w1 o1]].
    assert (Hco1 : coherent o1).
    { destruct r as [[s|b]|e].
      - destruct Hstep as (_ & _ & Hs & Hn & Hg).
        intros s' Hs'. rewrite Hs in Hs'. inversion Hs'; subst. now split.
      - destruct Hstep as (Hp & Hs & _).
        intros s' Hs'. rewrite Hp. apply Hco. now rewrite <- Hs.
      - now subst o1. }
    specialize (IH w1 o1 Hco1).
    destruct (Relay.serve_all qs (w1, o1)) as [rs [w2 o2]].
    destruct IH as (Hlen & Hco2 & Hint & Hdr & Hnone).
    split; [simpl; lia|]. split; [exact Hco2|].
    destruct r as [[s|b]|e]; cbn [count_sections count_posts].
    + destruct Hstep as ([block Hb] & Hd & Hs & _).
      rewrite Hint, Hdr, Hb, Hd, length_app. simpl.
      split; [lia|]. split; [lia|]. split.
      * intros Hn. apply Hnone in Hn as [Hn _]. rewrite Hs in Hn. discriminate.
      * intros [_ Hn]. discriminate.
    + destruct Hstep as (Hp & Hs & [d Hd]).
      unfold interactions_of in *. rewrite Hint, Hdr, Hd, Hp, length_app. simpl.
      rewrite <- Hs. split; [lia|]. split; [lia|]. exact Hnone.
    + subst o1. split; [lia|]. split; [lia|]. exact Hnone.
Qed.

Lemma coherent_init : coherent Orchestrator.init.
Proof. intros s Hs. discriminate. Qed.

(** X6.  The state machine the orchestrator really has.  After any run of
    requests against a freshly created orchestrator, [current_state] is
    [None] exactly when no [process] and no [refine] request has returned
    sections, and that is exactly when a further [finalize_to_blog] raises
    "No content to finalize"; and whenever [current_state] is set, the
    processor's current narrative and growth points are the ones in it. *)
Theorem serve_all_state_machine (qs : list Relay.request) (w : World) :
  let '(rs, (w', o)) := Relay.serve_all qs (w, Orchestrator.init) in
  List.length rs = List.length qs /\
  (Orchestrator.current_state o = None <-> count_sections rs = 0%nat) /\
  (fst (Orchestrator.finalize_to_blog (w', o)) = Raise no_content_to_finalize
   <-> count_sections rs = 0%nat) /\
  coherent o.
Proof.
  pose proof (serve_all_from qs w coherent_init) as H.
  destruct (Relay.serve_all qs (w, Orchestrator.init)) as [rs [w' o]].
  destruct H as (Hlen & Hco & _ & _ & Hnone).
  assert (Hiff : Orchestrator.current_state o = None <-> count_sections rs = 0%nat).
  { rewrite Hnone. simpl. tauto. }
  split; [exact Hlen|]. split; [exact Hiff|]. split; [|exact Hco].
  rewrite <- Hiff. exact (proj1 (finalize_guard w' o)).
Qed.

(** X7.  The two session memories count the successes.  After any run of
    requests against a freshly created orchestrator, the processor's memory
    holds one interaction per [process] or [refine] request that returned,
    and the conversion history one entry per [finalize] request that
    returned; a request that raised left no trace in either. *)
Theorem serve_all_histories (qs : list Relay.request) (w : World) :
  let '(rs, (_, o)) := Relay.serve_all qs (w, Orchestrator.init) in
  List.length (interactions_of o) = count_sections rs /\
  List.length (drafts_of o) = count_posts rs.
Proof.
  pose proof (serve_all_from qs w coherent_init) as H.
  destruct (Relay.serve_all qs (w, Orchestrator.init)) as [rs [w' o]].
  destruct H as (_ & _ & Hint & Hdr & _).
  split; [exact Hint | exact Hdr].
Qed.
End Traces.

(** ** What goes out to the remote model *)

(** X8.  One request, one remote call at most.  Against a logging stub of
    the collaborators, whatever they answer: a [process] request sends
    exactly the processing prompt of its idea, a [refine] request exactly the
    refinement prompt built around the processor's current narrative, and
    neither touches the chat session; a [finalize] request sends no prompt,
    and sends the wrapped [connected_narrative] of [current_state] to the
    chat session, or nothing at all when [current_state] is [None]. *)
Theorem serve_sends (model chat : str -> str + unit) (q : Relay.request)
        (w : @World (Stub.env model chat)) (o : Orchestrator.t) :
  let w' := fst (snd (@Relay.serve (Stub.env model chat) q (w, o))) in
  Stub.sent_prompts w'
    = Stub.sent_prompts w ++ @prompts_of (Stub.env model chat) q o /\
  Stub.sent_messages w'
    = Stub.sent_messages w ++ @messages_of (Stub.env model chat) q o.
Proof.
  intros w'. subst w'.
  destruct q as [idea|refinement|]; unfold Relay.serve, bind, ret.
  - rewrite process_initial_idea_run, process_brain_dump_run.
    unfold generate_content, now_isoformat, Stub.env.
    destruct (model _) as [response|[]]; simpl;
      now rewrite app_nil_r.
  - rewrite refine_content_run, refine_narrative_run.
    unfold generate_content, now_isoformat, Stub.env.
    destruct (model _) as [response|[]]; simpl;
      now rewrite app_nil_r.
  - rewrite finalize_to_blog_run. unfold messages_of.
    destruct (Orchestrator.current_state o) as [sections|].
    + rewrite convert_draft_run.
      unfold send_message, now_isoformat, Stub.env.
      destruct (chat _) as [response|[]]; simpl.
      * destruct (Draft2Blog._extract_styled_content response); simpl;
          now rewrite app_nil_r.
      * now rewrite app_nil_r.
    + simpl. now rewrite !app_nil_r.
Qed.

(** ** The processor's memory and its export *)

Section ProcessorMemory.
Context {E : Env}.

Lemma add_interaction_run (response : str) (w : World) (m : MemoryObject.t) :
  MemoryObject.add_interaction response (w, m) =
  let (ts, w1) := now_isoformat w in
  (Ok tt,
   (w1, MemoryObject.Build
          (MemoryObject.interactions m ++
           [MemoryObject.format_interaction ts
              (List.length (MemoryObject.interactions m) + 1) response]))).
Proof.
  unfold MemoryObject.add_interaction. step_prog.
  now destruct (now_isoformat w).
Qed.

Lemma add_interactions_run (responses : list str) (w : World)
      (m : MemoryObject.t) :
  exists w' stamped,
    add_interactions responses (w, m)
      = (Ok tt,
         (w', MemoryObject.Build
                (MemoryObject.interactions m ++
                 numbered_blocks (List.length (MemoryObject.interactions m) + 1)
                   stamped))) /\
    map snd stamped = responses.
Proof.
  revert w m; induction responses as [|r rest IH]; intros w m.
  - exists w, []. destruct m. simpl. now rewrite app_nil_r.
  - cbn [add_interactions]. unfold bind. rewrite add_interaction_run.
    destruct (now_isoformat w) as [ts w1].
    set (block := MemoryObject.format_interaction ts
                    (List.length (MemoryObject.interactions m) + 1) r).
    destruct (IH w1 (MemoryObject.Build (MemoryObject.interactions m ++ [block])))
      as (w' & stamped & Hrun & Hmap).
    exists w', ((ts, r) :: stamped). split.
    + rewrite Hrun. cbn [MemoryObject.interactions numbered_blocks].
      rewrite <- app_assoc, length_app. simpl.
      replace (List.length (MemoryObject.interactions m) + 1 + 1)%nat
        with (S (List.length (MemoryObject.interactions m) + 1)) by lia.
      reflexivity.
    + simpl. now rewrite Hmap.
Qed.

(** X9.  [add_interaction] numbers the responses from 1.  After recording
    [n] responses into an empty memory the log holds [n] blocks in call
    order, the [k]-th of them (from 1) wrapping the [k]-th response in
    [<response{k}>] tags inside an [<interaction timestamp=...>] element. *)
Theorem add_interaction_numbering (responses : list str) (w : World) :
  let '(r, (_, m)) := add_interactions responses (w, MemoryObject.empty) in
  r = Ok tt /\
  List.length (MemoryObject.interactions m) = List.length responses /\
  exists stamped,
    map snd stamped = responses /\
    MemoryObject.interactions m = numbered_blocks 1 stamped.
Proof.
  destruct (add_interactions_run responses w MemoryObject.empty)
    as (w' & stamped & Hrun & Hmap).
  rewrite Hrun. simpl. split; [reflexivity|]. split.
  - rewrite <- Hmap, length_map. clear.
    generalize 1%nat. induction stamped as [|[ts r] rest IH]; intros k; simpl;
      [reflexivity | now rewrite IH].
  - now exists stamped.
Qed.
End ProcessorMemory.

Lemma join_snoc (sep : str) (parts : list str) (last : str) :
  join sep (parts ++ [last]) =
  match parts with
  | [] => last
  | _ :: _ => join sep parts ++ sep ++ last
  end.
Proof.
  induction parts as [|p rest IH]; [reflexivity|].
  destruct rest as [|q rest]; [reflexivity|].
  change (join sep ((p :: q :: rest) ++ [last]))
    with (p ++ sep ++ join sep ((q :: rest) ++ [last])).
  rewrite IH.
  change (join sep (p :: q :: rest)) with (p ++ sep ++ join sep (q :: rest)).
  now rewrite <- !app_assoc.
Qed.

(** X10.  The memory string grows at its end.  After one more
    [add_interaction], [get_memory_string] is the previous memory string,
    a newline and the new block; on an empty memory it is the new block
    alone, and the memory string of an empty memory is empty. *)
Theorem get_memory_string_grows {E : Env} (response : str) (w : World)
        (m : MemoryObject.t) :
  MemoryObject.get_memory_string MemoryObject.empty = [] /\
  let '(_, (_, m')) := MemoryObject.add_interaction response (w, m) in
  exists ts,
    let block := MemoryObject.format_interaction ts
                   (List.length (MemoryObject.interactions m) + 1) response in
    MemoryObject.get_memory_string m' =
    match MemoryObject.interactions m with
    | [] => block
    | _ :: _ => MemoryObject.get_memory_string m ++ lit "
" ++ block
    end.
Proof.
  split; [reflexivity|].
  rewrite add_interaction_run.
  destruct (now_isoformat w) as [ts w1]. exists ts.
  unfold MemoryObject.get_memory_string. cbn [MemoryObject.interactions].
  apply join_snoc.
Qed.

Section NarrativeExport.
Context {E : Env}.

Lemma export_final_narrative_run (filename : str) (w : World)
      (p : ThoughtProcessor.t) :
  ThoughtProcessor.export_final_narrative filename (w, p) =
  let (ts, w1) := now_isoformat w in
  match dump_json filename (ThoughtProcessor.final_narrative_document p ts) w1 with
  | (inl _, w2) => (Ok filename, (w2, p))
  | (inr f, w2) => (Raise (ExternalError f), (w2, p))
  end.
Proof.
  unfold ThoughtProcessor.export_final_narrative. step_prog.
  destruct (now_isoformat w) as [ts w1]. simpl.
  destruct (dump_json _ _ w1) as [[[]|f] w2]; reflexivity.
Qed.

(** X11.  [export_final_narrative] after a successful [process_brain_dump]
    or [refine_narrative] hands the JSON writer the object
    [{connected_narrative, growth_points, timestamp}] holding the two
    sections just returned (the AI contributions are not exported), returns
    the file name it was given, or passes the writer's failure on; either
    way the processor is left as it was.  On a processor that has processed
    nothing, both exported sections are the empty string. *)
Theorem export_final_narrative_after (filename : str) (w w1 : World)
        (p p1 : ThoughtProcessor.t) (sections : ParsedSections) :
  (exists idea,
      ThoughtProcessor.process_brain_dump idea (w, p)
      = (Ok sections, (w1, p1))) \/
  (exists request,
      ThoughtProcessor.refine_narrative request (w, p)
      = (Ok sections, (w1, p1))) ->
  ThoughtProcessor.export_final_narrative filename (w1, p1) =
  (let (ts, w2) := now_isoformat w1 in
   match dump_json filename
           (JObject [(lit "connected_narrative",
                      JString (connected_narrative sections));
                     (lit "growth_points", JString (growth_points sections));
                     (lit "timestamp", JString ts)]) w2 with
   | (inl _, w3) => (Ok filename, (w3, p1))
   | (inr f, w3) => (Raise (ExternalError f), (w3, p1))
   end) /\
  forall ts,
    ThoughtProcessor.final_narrative_document ThoughtProcessor.init ts
    = JObject [(lit "connected_narrative", JString []);
               (lit "growth_points", JString []);
               (lit "timestamp", JString ts)].
Proof.
  intros H. split; [|reflexivity].
  rewrite export_final_narrative_run.
  assert (Hp1 : ThoughtProcessor.current_narrative p1
                = connected_narrative sections /\
                ThoughtProcessor.current_growth_points p1
                = growth_points sections).
  { destruct H as [[idea H]|[request H]].
    - rewrite process_brain_dump_run in H.
      destruct (generate_content _ w) as [[response|f] w0]; [|discriminate].
      destruct (now_isoformat w0). inversion H; subst. now split.
    - rewrite refine_narrative_run in H.
      destruct (generate_content _ w) as [[response|f] w0]; [|discriminate].
      destruct (now_isoformat w0). inversion H; subst. now split. }
  destruct Hp1 as [Hn Hg].
  unfold ThoughtProcessor.final_narrative_document. now rewrite Hn, Hg.
Qed.
End NarrativeExport.

(** X11 on the stub: processing then exporting to [out.json]. *)
Lemma export_final_narrative_after_witness :
  let E := Stub.env (Stub.always tagged_reply) Stub.down in
  let st := snd (@ThoughtProcessor.process_brain_dump E (lit "hello")
                   (Stub.fresh, ThoughtProcessor.init)) in
  @ThoughtProcessor.export_final_narrative E (lit "out.json") st
  = (Ok (lit "out.json"),
     ({| Stub.ticks := 2;
         Stub.sent_prompts := [ThoughtProcessor._get_processing_prompt (lit "hello")];
         Stub.sent_messages := [] |}, snd st)).
Proof.
  intros E st.
  pose proof (@export_final_narrative_after E (lit "out.json") Stub.fresh
                (fst st) ThoughtProcessor.init (snd st)
                {| connected_narrative := lit "N"; growth_points := lit "G";
                   ai_contributions := lit "C" |}) as H.
  destruct H as [H _].
  - left. exists (lit "hello"). vm_compute. reflexivity.
  - change st with (fst st, snd st). rewrite H. vm_compute. reflexivity.
Defined.

(** ** The HTTP handlers *)

Section Handlers.
Context {E : Env}.
Variable describe : failure -> str.

End Handlers.

(** ** The form of what convert_draft sends *)

(** X13.  Whatever the draft, the string [convert_draft] sends and records
    starts with [<draft>] once stripped, and wrapping it again changes
    nothing; the draft goes out untouched exactly when its stripped form
    already starts with [<draft>] (so leading white space and a missing
    close tag are passed on as they are), and the empty draft goes out as
    [<draft></draft>]. *)
Theorem wrap_draft_form (draft : str) :
  startswith (strip (Draft2Blog.wrap_draft draft)) draft_open = true /\
  Draft2Blog.wrap_draft (Draft2Blog.wrap_draft draft) = Draft2Blog.wrap_draft draft /\
  (Draft2Blog.wrap_draft draft = draft <->
   startswith (strip draft) draft_open = true) /\
  Draft2Blog.wrap_draft [] = lit "<draft></draft>" /\
  Draft2Blog.wrap_draft (lit "  <draft>" ++ draft) = lit "  <draft>" ++ draft.
Proof.
  split; [|split; [apply wrap_draft_idempotent|split; [|split]]].
  - destruct (startswith (strip draft) draft_open) eqn:H.
    + unfold Draft2Blog.wrap_draft. fold draft_open. now rewrite H.
    + rewrite (wrap_draft_unwrapped _ H). apply strip_keeps_draft_open.
  - split.
    + intros Hw.
      destruct (startswith (strip draft) draft_open) eqn:H; [reflexivity|].
      rewrite (wrap_draft_unwrapped _ H) in Hw.
      now apply wrapped_is_longer in Hw.
    + intros H. unfold Draft2Blog.wrap_draft. fold draft_open. now rewrite H.
  - reflexivity.
  - unfold Draft2Blog.wrap_draft. fold draft_open.
    assert (Hs : startswith (strip (lit "  <draft>" ++ draft)) draft_open = true).
    { unfold strip.
      change (lstrip (lit "  <draft>" ++ draft)) with (draft_open ++ draft).
      apply strip_keeps_draft_open. }
    now rewrite Hs.
Qed.
